(** * The HTML template language service of typescript-lit-html-plugin

    A shallow embedding of [src/html-template-language-service.ts]: the
    completion cache, the facade operations built on it and the translators
    from the vscode language-service result shapes to the TypeScript host
    shapes, followed by the properties the specification states about them.

    JavaScript strings are sequences of UTF-16 code units, numbers that the
    service handles (offsets, lines, columns, enum values) are integers. *)

From Stdlib Require Import List ZArith NArith Bool Lia String Ascii.
Import ListNotations.
Open Scope Z_scope.

(** ** JavaScript strings *)

Module Js.

(** A string value: its UTF-16 code units. *)
Definition jsstring := list N.

(** A string literal of the source, written with ASCII characters. *)
Definition lit (s : string) : jsstring :=
  map N_of_ascii (list_ascii_of_string s).

(** [a === b] on strings. *)
Fixpoint str_eqb (a b : jsstring) : bool :=
  match a, b with
  | [], [] => true
  | x :: a', y :: b' => N.eqb x y && str_eqb a' b'
  | _, _ => false
  end.

(** [s.length] *)
Definition strlen (s : jsstring) : Z := Z.of_nat (List.length s).

(** A string is falsy exactly when it is empty. *)
Definition truthy_str (s : jsstring) : bool :=
  match s with [] => false | _ => true end.

Definition LF : N := 10%N.

(** The character class [\s]: WhiteSpace and LineTerminator code points
    of ECMAScript. *)
Definition is_space (c : N) : bool :=
  ((9 <=? c) && (c <=? 13) || (c =? 32) || (c =? 160) || (c =? 5760)
   || (8192 <=? c) && (c <=? 8202) || (c =? 8232) || (c =? 8233)
   || (c =? 8239) || (c =? 8287) || (c =? 12288) || (c =? 65279))%N.

(** Upper-case counterpart of an ASCII letter; other code units are
    returned as they are. *)
Definition ascii_upper (c : N) : N :=
  if ((97 <=? c) && (c <=? 122))%N then (c - 32)%N else c.

(** ** The regular expressions of the source

    The four regular expressions of the file are sequences of single
    character classes, some of them under a greedy [*] or [+], between
    optional [^] and [$] anchors.  [match_here] is the backtracking
    matcher of such a sequence at the head of the input: it yields the
    length of the match the JavaScript matcher finds there. *)

Inductive atom : Type :=
| One (p : N -> bool)      (* a character class, once *)
| Star (p : N -> bool)     (* p*, greedy *)
| Plus (p : N -> bool).    (* p+, greedy *)

Record regex : Type := mkRegex {
  anchored_start : bool;   (* the pattern starts with ^ *)
  atoms : list atom;
  anchored_end : bool      (* the pattern ends with $ *)
}.

(** Greedy repetition: take one more character first, and fall back to
    the continuation [k] at the current place when that fails. *)
Fixpoint star (p : N -> bool) (k : jsstring -> option nat) (s : jsstring)
  : option nat :=
  match s with
  | c :: s' =>
      if p c then
        match star p k s' with
        | Some n => Some (S n)
        | None => k s
        end
      else k s
  | [] => k []
  end.

Fixpoint match_here (at_end : bool) (l : list atom) : jsstring -> option nat :=
  match l with
  | [] => fun s =>
      if at_end then match s with [] => Some O | _ => None end
      else Some O
  | One p :: rest => fun s =>
      match s with
      | c :: s' => if p c then option_map S (match_here at_end rest s') else None
      | [] => None
      end
  | Star p :: rest => star p (match_here at_end rest)
  | Plus p :: rest => fun s =>
      match s with
      | c :: s' =>
          if p c then option_map S (star p (match_here at_end rest) s')
          else None
      | [] => None
      end
  end.

Definition match_at (r : regex) : jsstring -> option nat :=
  match_here (anchored_end r) (atoms r).

(** Leftmost match searched from the head of [s]: index and length. *)
Fixpoint search_from (r : regex) (s : jsstring) : option (nat * nat) :=
  match match_at r s with
  | Some n => Some (O, n)
  | None =>
      match s with
      | [] => None
      | _ :: s' =>
          match search_from r s' with
          | Some (i, n) => Some (S i, n)
          | None => None
          end
      end
  end.

(** [s.match(r)] for a regular expression without the [g] flag: the
    matched substring [m[0]], or [None] for [null]. *)
Definition str_match (s : jsstring) (r : regex) : option jsstring :=
  if anchored_start r then
    match match_at r s with
    | Some n => Some (firstn n s)
    | None => None
    end
  else
    match search_from r s with
    | Some (i, n) => Some (firstn n (skipn i s))
    | None => None
    end.

(** [s.replace(r, repl)] for an unanchored regular expression with the
    [g] flag.  [skip] counts the characters of the current match that
    are still to be dropped. *)
Fixpoint replace_go (r : regex) (repl : jsstring) (skip : nat) (s : jsstring)
  : jsstring :=
  match s with
  | [] =>
      match skip, match_at r [] with
      | O, Some _ => repl
      | _, _ => []
      end
  | c :: s' =>
      match skip with
      | S k => replace_go r repl k s'
      | O =>
          match match_at r s with
          | Some (S n) => repl ++ replace_go r repl n s'
          | Some O => repl ++ c :: replace_go r repl O s'
          | None => c :: replace_go r repl O s'
          end
      end
  end.

Definition str_replace (s : jsstring) (r : regex) (repl : jsstring) : jsstring :=
  replace_go r repl O s.

(** [s.split(r)] for an unanchored regular expression.  [cur] is the
    piece being collected, in reverse; an empty match splits only when
    the current piece is not empty. *)
Fixpoint split_go (r : regex) (skip : nat) (cur : jsstring) (s : jsstring)
  : list jsstring :=
  match s with
  | [] => [rev cur]
  | c :: s' =>
      match skip with
      | S k => split_go r k cur s'
      | O =>
          match match_at r s with
          | Some (S n) => rev cur :: split_go r n [] s'
          | Some O =>
              match cur with
              | [] => split_go r O [c] s'
              | _ => rev cur :: split_go r O [c] s'
              end
          | None => split_go r O (c :: cur) s'
          end
      end
  end.

Definition str_split (s : jsstring) (r : regex) : list jsstring :=
  match s with
  | [] => match match_at r [] with Some _ => [] | None => [[]] end
  | _ => split_go r O [] s
  end.

(** A literal character of a pattern. *)
Definition chr (c : N) : atom := One (N.eqb c).

(** A literal character of a pattern with the [i] flag: the input
    character [x] matches the pattern character [c] when both have the
    same upper-case form.  Without the [u] flag a code unit above 127
    never folds onto an ASCII one, so an ASCII letter matches itself in
    either case and nothing else. *)
Definition fold_eqb (c x : N) : bool :=
  N.eqb (ascii_upper x) (ascii_upper c) && (x <? 128)%N.

Definition chr_i (c : N) : atom := One (fold_eqb c).

End Js.

Import Js.

(** ** Result shapes of vscode-languageserver-types

    Only the members this file reads or builds are kept.  Each record
    lives in a module of its own, so that the members keep the names they
    have in the source. *)

Module vscode.

Module Position.
(** Also [ts.LineAndCharacter]: the source passes one for the other. *)
Record t : Type := mk { line : Z; character : Z }.
End Position.

Module Range.
Record t : Type := mk { start : Position.t; end_ : Position.t }.
End Range.

(** The numeric enumeration [CompletionItemKind]. *)
Module CompletionItemKind.
Definition Text : Z := 1.
Definition Method : Z := 2.
Definition Function_ : Z := 3.
Definition Constructor : Z := 4.
Definition Field : Z := 5.
Definition Variable_ : Z := 6.
Definition Class_ : Z := 7.
Definition Interface : Z := 8.
Definition Module_ : Z := 9.
Definition Property : Z := 10.
Definition Unit : Z := 11.
Definition Value : Z := 12.
Definition Enum : Z := 13.
Definition Keyword : Z := 14.
Definition Snippet : Z := 15.
Definition Color : Z := 16.
Definition File : Z := 17.
Definition Reference : Z := 18.
Definition Folder : Z := 19.
Definition EnumMember : Z := 20.
Definition Constant : Z := 21.
Definition Struct : Z := 22.
Definition Event : Z := 23.
Definition Operator : Z := 24.
Definition TypeParameter : Z := 25.

(** Every member of the enumeration. *)
Definition all : list Z :=
  [Text; Method; Function_; Constructor; Field; Variable_; Class_;
   Interface; Module_; Property; Unit; Value; Enum; Keyword; Snippet;
   Color; File; Reference; Folder; EnumMember; Constant; Struct; Event;
   Operator; TypeParameter].
End CompletionItemKind.

Module MarkupContent.
Record t : Type := mk { kind : jsstring; value : jsstring }.
End MarkupContent.

(** [string | MarkupContent], the type of a completion item's
    documentation. *)
Inductive Documentation : Type :=
| DocString (s : jsstring)
| DocMarkup (m : MarkupContent.t).

Module CompletionItem.
Record t : Type := mk {
  label : jsstring;
  kind : option Z;
  detail : option jsstring;
  documentation : option Documentation
}.
End CompletionItem.

Module CompletionList.
Record t : Type := mk { isIncomplete : bool; items : list CompletionItem.t }.
End CompletionList.

(** [MarkupContent | MarkedString | MarkedString[]]: a plain string, an
    object with a [value] member ([tag] is its [kind] or [language]), or
    an array, which the source walks recursively. *)
#[warnings="-register-all"]
Inductive HoverContents : Type :=
| HoverString (s : jsstring)
| HoverArray (l : list HoverContents)
| HoverObject (tag : jsstring) (value : jsstring).

Module Hover.
Record t : Type := mk { contents : HoverContents; range : option Range.t }.
End Hover.

Module TextEdit.
Record t : Type := mk { range : Range.t; newText : jsstring }.
End TextEdit.

Module TextDocument.
Record t : Type := mk {
  uri : jsstring;
  languageId : jsstring;
  version : Z;
  getText : jsstring;
  positionAt : Z -> Position.t;
  offsetAt : Position.t -> Z;
  lineCount : Z
}.
End TextDocument.

(** The options object handed to the HTML formatter. *)
Module HTMLFormatConfiguration.
Record t : Type := mk {
  tabSize : Z;
  insertSpaces : bool;
  wrapLineLength : Z;
  unformatted : jsstring;
  contentUnformatted : jsstring;
  indentInnerHtml : bool;
  preserveNewLines : bool;
  maxPreserveNewLines : option Z;
  indentHandlebars : bool;
  endWithNewline : bool;
  extraLiners : jsstring;
  wrapAttributes : jsstring
}.
End HTMLFormatConfiguration.

Module FoldingRange.
Record t : Type := mk {
  startLine : Z;
  startCharacter : option Z;
  endLine : Z;
  endCharacter : option Z
}.
End FoldingRange.

(** The numeric enumeration [DiagnosticSeverity]. *)
Module DiagnosticSeverity.
Definition Error : Z := 1.
Definition Warning : Z := 2.
Definition Information : Z := 3.
Definition Hint_ : Z := 4.
End DiagnosticSeverity.

End vscode.

(** ** Result shapes of the TypeScript host *)

Module ts.

(** The members of the string enumeration [ScriptElementKind] that the
    source names. *)
Module ScriptElementKind.
Inductive t : Type :=
| unknown
| keyword
| memberFunctionElement
| functionElement
| constructorImplementationElement
| variableElement
| classElement
| interfaceElement
| moduleElement
| memberVariableElement
| constElement
| enumElement
| alias
| string.
End ScriptElementKind.

Module SymbolDisplayPart.
Record t : Type := mk { text : jsstring; kind : jsstring }.
End SymbolDisplayPart.

Module JSDocTagInfo.
Record t : Type := mk { name : jsstring; text : option jsstring }.
End JSDocTagInfo.

Module TextSpan.
Record t : Type := mk { start : Z; length : Z }.
End TextSpan.

Module TextChange.
Record t : Type := mk { span : TextSpan.t; newText : jsstring }.
End TextChange.

Module CompletionEntry.
Record t : Type := mk {
  name : jsstring;
  kindModifiers : jsstring;
  kind : ScriptElementKind.t;
  sortText : jsstring
}.
End CompletionEntry.

Module CompletionInfo.
Record t : Type := mk {
  isGlobalCompletion : bool;
  isMemberCompletion : bool;
  isNewIdentifierLocation : bool;
  entries : list CompletionEntry.t
}.
End CompletionInfo.

Module CompletionEntryDetails.
Record t : Type := mk {
  name : jsstring;
  kind : ScriptElementKind.t;
  kindModifiers : jsstring;
  tags : list JSDocTagInfo.t;
  displayParts : list SymbolDisplayPart.t;
  documentation : list SymbolDisplayPart.t
}.
End CompletionEntryDetails.

Module QuickInfo.
Record t : Type := mk {
  kind : ScriptElementKind.t;
  kindModifiers : jsstring;
  textSpan : TextSpan.t;
  displayParts : list SymbolDisplayPart.t;
  documentation : list SymbolDisplayPart.t;
  tags : list JSDocTagInfo.t
}.
End QuickInfo.

Module EditorSettings.
Record t : Type := mk { tabSize : Z; convertTabsToSpaces : option bool }.
End EditorSettings.

(** The numeric enumeration [DiagnosticCategory]. *)
Module DiagnosticCategory.
Inductive t : Type := Warning | Error | Suggestion | Message.
End DiagnosticCategory.

Module OutliningSpanKind.
Inductive t : Type := Comment | Region | Code | Imports.
End OutliningSpanKind.

Module OutliningSpan.
Record t : Type := mk {
  autoCollapse : bool;
  kind : OutliningSpanKind.t;
  bannerText : jsstring;
  textSpan : TextSpan.t;
  hintSpan : TextSpan.t
}.
End OutliningSpan.

Module FileTextChanges.
Record t : Type := mk {
  fileName : jsstring;
  textChanges : list TextChange.t
}.
End FileTextChanges.

End ts.

(** ** The template context supplied by the decorator library *)

Module TemplateContext.
Record t : Type := mk {
  fileName : jsstring;
  text : jsstring;
  toPosition : Z -> vscode.Position.t;
  toOffset : vscode.Position.t -> Z
}.
End TemplateContext.

(** The plugin configuration: [configuration.format.enabled]. *)
Module TsHtmlPluginConfiguration.
Record format_t : Type := mkFormat { enabled : bool }.
Record t : Type := mk { format : format_t }.
End TsHtmlPluginConfiguration.

(** ** The completion cache *)

Definition emptyCompletionList : vscode.CompletionList.t :=
  {| vscode.CompletionList.isIncomplete := false;
     vscode.CompletionList.items := [] |}.

Definition arePositionsEqual (left right : vscode.Position.t) : bool :=
  (vscode.Position.line left =? vscode.Position.line right)
  && (vscode.Position.character left =? vscode.Position.character right).

Module CompletionsCache.

(** The four private members; each is [undefined] on a new cache. *)
Record t : Type := mk {
  _cachedCompletionsFile : option jsstring;
  _cachedCompletionsPosition : option vscode.Position.t;
  _cachedCompletionsContent : option jsstring;
  _completions : option vscode.CompletionList.t
}.

(** [new CompletionsCache()] *)
Definition new : t := mk None None None None.

(** [x === y] for a string [x] and a member that may be undefined. *)
Definition eq_member (x : jsstring) (y : option jsstring) : bool :=
  match y with
  | Some s => str_eqb x s
  | None => false
  end.

Definition getCached (this : t) (context : TemplateContext.t)
           (position : vscode.Position.t) : option vscode.CompletionList.t :=
  match _completions this with
  | Some completions =>
      if eq_member (TemplateContext.fileName context) (_cachedCompletionsFile this)
         && match _cachedCompletionsPosition this with
            | Some cached => arePositionsEqual position cached
            | None => false
            end
         && eq_member (TemplateContext.text context) (_cachedCompletionsContent this)
      then Some completions
      else None
  | None => None
  end.

Definition updateCached (this : t) (context : TemplateContext.t)
           (position : vscode.Position.t)
           (completions : vscode.CompletionList.t) : t :=
  {| _cachedCompletionsFile := Some (TemplateContext.fileName context);
     _cachedCompletionsPosition := Some position;
     _cachedCompletionsContent := Some (TemplateContext.text context);
     _completions := Some completions |}.

End CompletionsCache.

(** ** The translators *)

Definition toDisplayParts (text : option vscode.Documentation)
  : list ts.SymbolDisplayPart.t :=
  match text with
  | None => []
  | Some (vscode.DocString s) =>
      if truthy_str s
      then [ {| ts.SymbolDisplayPart.kind := lit "text";
                ts.SymbolDisplayPart.text := s |} ]
      else []
  | Some (vscode.DocMarkup m) =>
      [ {| ts.SymbolDisplayPart.kind := lit "text";
           ts.SymbolDisplayPart.text := vscode.MarkupContent.value m |} ]
  end.

(** The [typescript] argument of the translators only gives access to the
    enumerations of the host and is left out. *)
Definition translateionCompletionItemKind (kind : Z) : ts.ScriptElementKind.t :=
  if kind =? vscode.CompletionItemKind.Method then
    ts.ScriptElementKind.memberFunctionElement
  else if kind =? vscode.CompletionItemKind.Function_ then
    ts.ScriptElementKind.functionElement
  else if kind =? vscode.CompletionItemKind.Constructor then
    ts.ScriptElementKind.constructorImplementationElement
  else if (kind =? vscode.CompletionItemKind.Field)
          || (kind =? vscode.CompletionItemKind.Variable_) then
    ts.ScriptElementKind.variableElement
  else if kind =? vscode.CompletionItemKind.Class_ then
    ts.ScriptElementKind.classElement
  else if kind =? vscode.CompletionItemKind.Interface then
    ts.ScriptElementKind.interfaceElement
  else if kind =? vscode.CompletionItemKind.Module_ then
    ts.ScriptElementKind.moduleElement
  else if kind =? vscode.CompletionItemKind.Property then
    ts.ScriptElementKind.memberVariableElement
  else if (kind =? vscode.CompletionItemKind.Unit)
          || (kind =? vscode.CompletionItemKind.Value) then
    ts.ScriptElementKind.constElement
  else if kind =? vscode.CompletionItemKind.Enum then
    ts.ScriptElementKind.enumElement
  else if kind =? vscode.CompletionItemKind.Keyword then
    ts.ScriptElementKind.keyword
  else if kind =? vscode.CompletionItemKind.Color then
    ts.ScriptElementKind.constElement
  else if kind =? vscode.CompletionItemKind.Reference then
    ts.ScriptElementKind.alias
  else if kind =? vscode.CompletionItemKind.File then
    ts.ScriptElementKind.moduleElement
  else
    ts.ScriptElementKind.unknown.

(** [item.kind ? translateionCompletionItemKind(typescript, item.kind)
              : typescript.ScriptElementKind.unknown]:
    an absent kind and the number 0 are falsy. *)
Definition translateItemKind (kind : option Z) : ts.ScriptElementKind.t :=
  match kind with
  | Some k =>
      if k =? 0 then ts.ScriptElementKind.unknown
      else translateionCompletionItemKind k
  | None => ts.ScriptElementKind.unknown
  end.

Definition translateCompetionEntry (item : vscode.CompletionItem.t)
  : ts.CompletionEntry.t :=
  {| ts.CompletionEntry.name := vscode.CompletionItem.label item;
     ts.CompletionEntry.kindModifiers := lit "";
     ts.CompletionEntry.kind := translateItemKind (vscode.CompletionItem.kind item);
     ts.CompletionEntry.sortText := lit "0" |}.

Definition translateCompletionItemsToCompletionInfo
           (items : vscode.CompletionList.t) : ts.CompletionInfo.t :=
  {| ts.CompletionInfo.isGlobalCompletion := false;
     ts.CompletionInfo.isMemberCompletion := false;
     ts.CompletionInfo.isNewIdentifierLocation := false;
     ts.CompletionInfo.entries :=
       map translateCompetionEntry (vscode.CompletionList.items items) |}.

Definition translateCompletionItemsToCompletionEntryDetails
           (item : vscode.CompletionItem.t) : ts.CompletionEntryDetails.t :=
  {| ts.CompletionEntryDetails.name := vscode.CompletionItem.label item;
     ts.CompletionEntryDetails.kindModifiers := lit "declare";
     ts.CompletionEntryDetails.kind :=
       translateItemKind (vscode.CompletionItem.kind item);
     ts.CompletionEntryDetails.displayParts :=
       toDisplayParts (option_map vscode.DocString (vscode.CompletionItem.detail item));
     ts.CompletionEntryDetails.documentation :=
       toDisplayParts (vscode.CompletionItem.documentation item);
     ts.CompletionEntryDetails.tags := [] |}.

(** ** Virtual documents *)

(** The regular expression [/n/g] of the two document factories. *)
Definition re_lineCount : regex := mkRegex false [chr 110%N] false.

Definition createVirtualDocument (context : TemplateContext.t)
  : vscode.TextDocument.t :=
  let contents := TemplateContext.text context in
  {| vscode.TextDocument.uri := lit "untitled://embedded.html";
     vscode.TextDocument.languageId := lit "html";
     vscode.TextDocument.version := 1;
     vscode.TextDocument.getText := contents;
     vscode.TextDocument.positionAt :=
       fun offset => TemplateContext.toPosition context offset;
     vscode.TextDocument.offsetAt :=
       fun p => TemplateContext.toOffset context p;
     vscode.TextDocument.lineCount :=
       Z.of_nat (List.length (str_split contents re_lineCount)) + 1 |}.

Definition createCssVirtualDocument (context : TemplateContext.t)
  : vscode.TextDocument.t :=
  let contents := TemplateContext.text context in
  {| vscode.TextDocument.uri := lit "untitled://embedded.css";
     vscode.TextDocument.languageId := lit "css";
     vscode.TextDocument.version := 1;
     vscode.TextDocument.getText := contents;
     vscode.TextDocument.positionAt :=
       fun offset => TemplateContext.toPosition context offset;
     vscode.TextDocument.offsetAt :=
       fun p => TemplateContext.toOffset context p;
     vscode.TextDocument.lineCount :=
       Z.of_nat (List.length (str_split contents re_lineCount)) + 1 |}.

Definition toVsRange (context : TemplateContext.t) (start end_ : Z)
  : vscode.Range.t :=
  {| vscode.Range.start := TemplateContext.toPosition context start;
     vscode.Range.end_ := TemplateContext.toPosition context end_ |}.

Definition toTsSpan (context : TemplateContext.t) (range : vscode.Range.t)
  : ts.TextSpan.t :=
  let editStart := TemplateContext.toOffset context (vscode.Range.start range) in
  let editEnd := TemplateContext.toOffset context (vscode.Range.end_ range) in
  {| ts.TextSpan.start := editStart;
     ts.TextSpan.length := editEnd - editStart |}.

(** ** Hover translation *)

(** The regular expression [/(<style>\n)\s+/gi]. *)
Definition re_styleDeclaration : regex :=
  mkRegex false
          (map chr_i (lit "<style>") ++ [chr_i LF; Plus is_space])
          false.

(** The regular expressions [/^\s*\n/] and [/\n\s*$/] of the formatter. *)
Definition re_leading : regex := mkRegex true [Star is_space; chr LF] false.
Definition re_trailing : regex := mkRegex false [chr LF; Star is_space] true.

Definition unknownPart (s : jsstring) : ts.SymbolDisplayPart.t :=
  {| ts.SymbolDisplayPart.kind := lit "unknown";
     ts.SymbolDisplayPart.text := s |}.

(** The closure [convertPart] of [translateHover]; the two arrays
    [header] and [docs] it pushes onto are threaded as a pair. *)
Fixpoint convertPart (languageId : jsstring)
         (hoverContents : vscode.HoverContents)
         (acc : list ts.SymbolDisplayPart.t * list ts.SymbolDisplayPart.t)
  : list ts.SymbolDisplayPart.t * list ts.SymbolDisplayPart.t :=
  let '(header, docs) := acc in
  match hoverContents with
  | vscode.HoverString s => (header, docs ++ [unknownPart s])
  | vscode.HoverArray l =>
      fold_left (fun a part => convertPart languageId part a) l acc
  | vscode.HoverObject _ value =>
      if str_eqb languageId (lit "css") then
        let removeStyleDeclaration :=
          str_replace value re_styleDeclaration (lit "") in
        (header ++ [unknownPart removeStyleDeclaration], docs)
      else
        (header ++ [unknownPart value], docs)
  end.

Definition translateHover (hover : vscode.Hover.t)
           (position : vscode.Position.t) (context : TemplateContext.t)
           (languageId : jsstring) : ts.QuickInfo.t :=
  let '(header, docs) :=
    convertPart languageId (vscode.Hover.contents hover) ([], []) in
  let start :=
    TemplateContext.toOffset context
      match vscode.Hover.range hover with
      | Some range => vscode.Range.start range
      | None => position
      end in
  {| ts.QuickInfo.kind := ts.ScriptElementKind.string;
     ts.QuickInfo.kindModifiers := lit "";
     ts.QuickInfo.textSpan :=
       {| ts.TextSpan.start := start;
          ts.TextSpan.length :=
            match vscode.Hover.range hover with
            | Some range =>
                TemplateContext.toOffset context (vscode.Range.end_ range) - start
            | None => 1
            end |};
     ts.QuickInfo.displayParts := header;
     ts.QuickInfo.documentation := docs;
     ts.QuickInfo.tags := [] |}.

(** ** The language services the facade calls

    The engines are external: each is a record of the operations the
    facade uses, and every statement below holds for whatever they
    answer. *)

Module HtmlLanguageService.
Record t (HTMLDocument : Type) : Type := mk {
  parseHTMLDocument : vscode.TextDocument.t -> HTMLDocument;
  doComplete : vscode.TextDocument.t -> vscode.Position.t -> HTMLDocument ->
               option vscode.CompletionList.t;
  doHover : vscode.TextDocument.t -> vscode.Position.t -> HTMLDocument ->
            option vscode.Hover.t;
  format : vscode.TextDocument.t -> vscode.Range.t ->
           vscode.HTMLFormatConfiguration.t -> list vscode.TextEdit.t
}.
Arguments mk {HTMLDocument}.
Arguments parseHTMLDocument {HTMLDocument}.
Arguments doComplete {HTMLDocument}.
Arguments doHover {HTMLDocument}.
Arguments format {HTMLDocument}.
End HtmlLanguageService.

Module CssLanguageService.
Record t (Stylesheet : Type) : Type := mk {
  parseStylesheet : vscode.TextDocument.t -> Stylesheet;
  doComplete : vscode.TextDocument.t -> vscode.Position.t -> Stylesheet ->
               option vscode.CompletionList.t
}.
Arguments mk {Stylesheet}.
Arguments parseStylesheet {Stylesheet}.
Arguments doComplete {Stylesheet}.
End CssLanguageService.

Module StyledTemplateLanguageService.
Record t : Type := mk {
  getQuickInfoAtPosition :
    TemplateContext.t -> vscode.Position.t -> option ts.QuickInfo.t
}.
End StyledTemplateLanguageService.

(** What [getDocumentRegions] of [./embeddedSupport] returns. *)
Module HTMLDocumentRegions.
Record t : Type := mk {
  getLanguageAtPosition : vscode.Position.t -> jsstring
}.
End HTMLDocumentRegions.

(** [x || emptyCompletionList] *)
Definition orEmpty (x : option vscode.CompletionList.t) : vscode.CompletionList.t :=
  match x with
  | Some completions => completions
  | None => emptyCompletionList
  end.

(** ** The class [HtmlTemplateLanguageService] *)

Section Service.

Context {HTMLDocument Stylesheet : Type}.

(** [getDocumentRegions] of [./embeddedSupport], the region classifier.
    Its source is not at hand, so it is a parameter: for a virtual
    document it answers which sub-language owns a position, [html],
    [css], or any other tag when no service applies. *)
Variable getDocumentRegions :
  HtmlLanguageService.t HTMLDocument -> vscode.TextDocument.t ->
  HTMLDocumentRegions.t.

(** [getCSSLanguageService] of vscode-css-languageservice. *)
Variable getCSSLanguageService : unit -> CssLanguageService.t Stylesheet.

(** The fields of an instance; the cache and the lazily created CSS
    service are the mutable ones. *)
Record HtmlTemplateLanguageService : Type := mkService {
  configuration : TsHtmlPluginConfiguration.t;
  htmlLanguageService : HtmlLanguageService.t HTMLDocument;
  styledLanguageService : StyledTemplateLanguageService.t;
  _cssLanguageService : option (CssLanguageService.t Stylesheet);
  _completionsCache : CompletionsCache.t
}.

(** The constructor: no CSS service yet, a new cache. *)
Definition newService (configuration : TsHtmlPluginConfiguration.t)
           (htmlLanguageService : HtmlLanguageService.t HTMLDocument)
           (styledLanguageService : StyledTemplateLanguageService.t)
  : HtmlTemplateLanguageService :=
  mkService configuration htmlLanguageService styledLanguageService
            None CompletionsCache.new.

Definition set_cssLanguageService (this : HtmlTemplateLanguageService)
           (s : CssLanguageService.t Stylesheet) : HtmlTemplateLanguageService :=
  mkService (configuration this) (htmlLanguageService this)
            (styledLanguageService this) (Some s) (_completionsCache this).

Definition set_completionsCache (this : HtmlTemplateLanguageService)
           (c : CompletionsCache.t) : HtmlTemplateLanguageService :=
  mkService (configuration this) (htmlLanguageService this)
            (styledLanguageService this) (_cssLanguageService this) c.

(** The getter [cssLanguageService]. *)
Definition cssLanguageService (this : HtmlTemplateLanguageService)
  : CssLanguageService.t Stylesheet * HtmlTemplateLanguageService :=
  match _cssLanguageService this with
  | Some s => (s, this)
  | None =>
      let s := getCSSLanguageService tt in
      (s, set_cssLanguageService this s)
  end.

(** The region tag of a position of the fragment. *)
Definition languageAt (this : HtmlTemplateLanguageService)
           (context : TemplateContext.t) (position : vscode.Position.t)
  : jsstring :=
  let htmlDoc := createVirtualDocument context in
  let documentRegions := getDocumentRegions (htmlLanguageService this) htmlDoc in
  HTMLDocumentRegions.getLanguageAtPosition documentRegions position.

(** The part of [getCompletionItems] after a cache miss, up to the
    cache update: the [switch] on the region tag. *)
Definition computeCompletions (this : HtmlTemplateLanguageService)
           (context : TemplateContext.t) (position : vscode.Position.t)
  : vscode.CompletionList.t * HtmlTemplateLanguageService :=
  let htmlDoc := createVirtualDocument context in
  let documentRegions := getDocumentRegions (htmlLanguageService this) htmlDoc in
  let languageId :=
    HTMLDocumentRegions.getLanguageAtPosition documentRegions position in
  if str_eqb languageId (lit "html") then
    let html :=
      HtmlLanguageService.parseHTMLDocument (htmlLanguageService this) htmlDoc in
    (orEmpty (HtmlLanguageService.doComplete (htmlLanguageService this)
                                             htmlDoc position html),
     this)
  else if str_eqb languageId (lit "css") then
    let cssDoc := createCssVirtualDocument context in
    let '(css, this) := cssLanguageService this in
    let stylesheet := CssLanguageService.parseStylesheet css cssDoc in
    (orEmpty (CssLanguageService.doComplete css cssDoc position stylesheet),
     this)
  else
    (emptyCompletionList, this).

Definition getCompletionItems (this : HtmlTemplateLanguageService)
           (context : TemplateContext.t) (position : vscode.Position.t)
  : vscode.CompletionList.t * HtmlTemplateLanguageService :=
  match CompletionsCache.getCached (_completionsCache this) context position with
  | Some cached => (cached, this)
  | None =>
      let '(completions, this) := computeCompletions this context position in
      (completions,
       set_completionsCache this
         (CompletionsCache.updateCached (_completionsCache this)
                                        context position completions))
  end.

Definition getCompletionsAtPosition (this : HtmlTemplateLanguageService)
           (context : TemplateContext.t) (position : vscode.Position.t)
  : ts.CompletionInfo.t * HtmlTemplateLanguageService :=
  let '(items, this) := getCompletionItems this context position in
  (translateCompletionItemsToCompletionInfo items, this).

(** [items.find(x => x.label === name)] *)
Definition findByLabel (items : list vscode.CompletionItem.t) (name : jsstring)
  : option vscode.CompletionItem.t :=
  find (fun x => str_eqb (vscode.CompletionItem.label x) name) items.

Definition getCompletionEntryDetails (this : HtmlTemplateLanguageService)
           (context : TemplateContext.t) (position : vscode.Position.t)
           (name : jsstring)
  : ts.CompletionEntryDetails.t * HtmlTemplateLanguageService :=
  let '(list, this) := getCompletionItems this context position in
  let items := vscode.CompletionList.items list in
  match findByLabel items name with
  | None =>
      ({| ts.CompletionEntryDetails.name := name;
          ts.CompletionEntryDetails.kind := ts.ScriptElementKind.unknown;
          ts.CompletionEntryDetails.kindModifiers := lit "";
          ts.CompletionEntryDetails.tags := [];
          ts.CompletionEntryDetails.displayParts :=
            toDisplayParts (Some (vscode.DocString name));
          ts.CompletionEntryDetails.documentation := [] |},
       this)
  | Some item =>
      (translateCompletionItemsToCompletionEntryDetails item, this)
  end.

Definition getQuickInfoAtPosition (this : HtmlTemplateLanguageService)
           (context : TemplateContext.t) (position : vscode.Position.t)
  : option ts.QuickInfo.t :=
  let htmlDoc := createVirtualDocument context in
  let documentRegions := getDocumentRegions (htmlLanguageService this) htmlDoc in
  let languageId :=
    HTMLDocumentRegions.getLanguageAtPosition documentRegions position in
  if str_eqb languageId (lit "html") then
    let html :=
      HtmlLanguageService.parseHTMLDocument (htmlLanguageService this) htmlDoc in
    match HtmlLanguageService.doHover (htmlLanguageService this)
                                      htmlDoc position html with
    | Some hover => Some (translateHover hover position context languageId)
    | None => None
    end
  else if str_eqb languageId (lit "css") then
    StyledTemplateLanguageService.getQuickInfoAtPosition
      (styledLanguageService this) context position
  else None.

(** The fixed options of the formatter. *)
Definition formatOptions (settings : ts.EditorSettings.t)
  : vscode.HTMLFormatConfiguration.t :=
  {| vscode.HTMLFormatConfiguration.tabSize := ts.EditorSettings.tabSize settings;
     vscode.HTMLFormatConfiguration.insertSpaces :=
       match ts.EditorSettings.convertTabsToSpaces settings with
       | Some b => b
       | None => false
       end;
     vscode.HTMLFormatConfiguration.wrapLineLength := 120;
     vscode.HTMLFormatConfiguration.unformatted := lit "";
     vscode.HTMLFormatConfiguration.contentUnformatted := lit "pre,code,textarea";
     vscode.HTMLFormatConfiguration.indentInnerHtml := false;
     vscode.HTMLFormatConfiguration.preserveNewLines := true;
     vscode.HTMLFormatConfiguration.maxPreserveNewLines := None;
     vscode.HTMLFormatConfiguration.indentHandlebars := false;
     vscode.HTMLFormatConfiguration.endWithNewline := false;
     vscode.HTMLFormatConfiguration.extraLiners := lit "head, body, /html";
     vscode.HTMLFormatConfiguration.wrapAttributes := lit "auto" |}.

Definition getFormattingEditsForRange (this : HtmlTemplateLanguageService)
           (context : TemplateContext.t) (start end_ : Z)
           (settings : ts.EditorSettings.t) : list ts.TextChange.t :=
  if negb (TsHtmlPluginConfiguration.enabled
             (TsHtmlPluginConfiguration.format (configuration this)))
  then []
  else
    let doc := createVirtualDocument context in
    let start :=
      match str_match (TemplateContext.text context) re_leading with
      | Some leading => start + strlen leading
      | None => start
      end in
    let end_ :=
      match str_match (TemplateContext.text context) re_trailing with
      | Some trailing => end_ - strlen trailing
      | None => end_
      end in
    if end_ <=? start then []
    else
      let range := toVsRange context start end_ in
      let edits :=
        HtmlLanguageService.format (htmlLanguageService this) doc range
                                   (formatOptions settings) in
      map (fun vsedit =>
             {| ts.TextChange.span :=
                  toTsSpan context (vscode.TextEdit.range vsedit);
                ts.TextChange.newText := vscode.TextEdit.newText vsedit |})
          edits.

End Service.

(** ** The remaining translators and helpers *)

(** [x || 0] for an optional number: absent and zero both give zero. *)
Definition orZero (x : option Z) : Z :=
  match x with
  | Some n => if n =? 0 then 0 else n
  | None => 0
  end.

Definition translateOutliningSpan (context : TemplateContext.t)
           (range : vscode.FoldingRange.t) : ts.OutliningSpan.t :=
  let startOffset :=
    TemplateContext.toOffset context
      {| vscode.Position.line := vscode.FoldingRange.startLine range;
         vscode.Position.character :=
           orZero (vscode.FoldingRange.startCharacter range) |} in
  let endOffset :=
    TemplateContext.toOffset context
      {| vscode.Position.line := vscode.FoldingRange.endLine range;
         vscode.Position.character :=
           orZero (vscode.FoldingRange.endCharacter range) |} in
  let span :=
    {| ts.TextSpan.start := startOffset;
       ts.TextSpan.length := endOffset - startOffset |} in
  {| ts.OutliningSpan.autoCollapse := false;
     ts.OutliningSpan.kind := ts.OutliningSpanKind.Code;
     ts.OutliningSpan.bannerText := lit "";
     ts.OutliningSpan.textSpan := span;
     ts.OutliningSpan.hintSpan := span |}.

(** [getOutliningSpans]; [getFoldingRanges] is the member of the HTML
    language service that the method calls. *)
Definition getOutliningSpans
           (getFoldingRanges : vscode.TextDocument.t -> list vscode.FoldingRange.t)
           (context : TemplateContext.t) : list ts.OutliningSpan.t :=
  let doc := createVirtualDocument context in
  let ranges := getFoldingRanges doc in
  map (fun range => translateOutliningSpan context range) ranges.

Definition translateTextEditToFileTextChange (context : TemplateContext.t)
           (textEdit : vscode.TextEdit.t) : ts.FileTextChanges.t :=
  let start :=
    TemplateContext.toOffset context
      (vscode.Range.start (vscode.TextEdit.range textEdit)) in
  let end_ :=
    TemplateContext.toOffset context
      (vscode.Range.end_ (vscode.TextEdit.range textEdit)) in
  {| ts.FileTextChanges.fileName := TemplateContext.fileName context;
     ts.FileTextChanges.textChanges :=
       [ {| ts.TextChange.newText := vscode.TextEdit.newText textEdit;
            ts.TextChange.span :=
              {| ts.TextSpan.start := start;
                 ts.TextSpan.length := end_ - start |} |} ] |}.

(** [severity] may be undefined; every value the [switch] does not name
    falls to the [default] label, which shares the arm of [Error]. *)
Definition translateSeverity (severity : option Z) : ts.DiagnosticCategory.t :=
  match severity with
  | Some s =>
      if (s =? vscode.DiagnosticSeverity.Information)
         || (s =? vscode.DiagnosticSeverity.Hint_) then
        ts.DiagnosticCategory.Message
      else if s =? vscode.DiagnosticSeverity.Warning then
        ts.DiagnosticCategory.Warning
      else
        ts.DiagnosticCategory.Error
  | None => ts.DiagnosticCategory.Error
  end.

Definition isAfter (left right : vscode.Position.t) : bool :=
  (vscode.Position.line right >? vscode.Position.line left)
  || ((vscode.Position.line right =? vscode.Position.line left)
      && (vscode.Position.character right >=? vscode.Position.character left)).

Definition overlaps (a b : vscode.Range.t) : bool :=
  negb (isAfter (vscode.Range.end_ a) (vscode.Range.start b))
  && negb (isAfter (vscode.Range.end_ b) (vscode.Range.start a)).

(** ** A sequence of completion requests

    The host calls the facade again and again on one instance;
    [serveCompletions] is the instance after a list of completion
    requests, oldest first. *)

Definition serveCompletions {HTMLDocument Stylesheet : Type}
           (getDocumentRegions :
              HtmlLanguageService.t HTMLDocument -> vscode.TextDocument.t ->
              HTMLDocumentRegions.t)
           (getCSSLanguageService : unit -> CssLanguageService.t Stylesheet)
           (this : @HtmlTemplateLanguageService HTMLDocument Stylesheet)
           (requests : list (TemplateContext.t * vscode.Position.t))
  : @HtmlTemplateLanguageService HTMLDocument Stylesheet :=
  fold_left
    (fun this request =>
       snd (getCompletionItems getDocumentRegions getCSSLanguageService
                               this (fst request) (snd request)))
    requests this.

(** ** A concrete instance

    A small host and small engines on which the statements below are
    exercised: positions are counted from the text of the fragment, the
    classifier gives line 0 to [html], line 1 to [css] and the rest to no
    language, and the engines answer with fixed lists. *)

Module Example.

(** [toPosition] of a fragment: walk [offset] characters, a line feed
    starts a new line. *)
Fixpoint positionOf (text : jsstring) (offset : nat) (line character : Z)
  : vscode.Position.t :=
  match offset, text with
  | O, _ => vscode.Position.mk line character
  | S n, c :: rest =>
      if (c =? LF)%N then positionOf rest n (line + 1) 0
      else positionOf rest n line (character + 1)
  | S n, [] => vscode.Position.mk line (character + Z.of_nat (S n))
  end.

(** [toOffset] of a fragment: skip [line] line feeds, then add the
    column. *)
Fixpoint offsetOf (text : jsstring) (line : nat) (character : Z) (acc : Z) : Z :=
  match line, text with
  | O, _ => acc + character
  | S n, c :: rest =>
      if (c =? LF)%N then offsetOf rest n character (acc + 1)
      else offsetOf rest (S n) character (acc + 1)
  | S n, [] => acc + character
  end.

Definition context (fileName text : jsstring) : TemplateContext.t :=
  {| TemplateContext.fileName := fileName;
     TemplateContext.text := text;
     TemplateContext.toPosition :=
       fun offset => positionOf text (Z.to_nat offset) 0 0;
     TemplateContext.toOffset :=
       fun p => offsetOf text (Z.to_nat (vscode.Position.line p))
                         (vscode.Position.character p) 0 |}.

Definition at_ (line character : Z) : vscode.Position.t :=
  vscode.Position.mk line character.

Definition item (label : string) (kind : option Z) : vscode.CompletionItem.t :=
  {| vscode.CompletionItem.label := lit label;
     vscode.CompletionItem.kind := kind;
     vscode.CompletionItem.detail := Some (lit "element");
     vscode.CompletionItem.documentation := None |}.

Definition htmlItems : vscode.CompletionList.t :=
  {| vscode.CompletionList.isIncomplete := false;
     vscode.CompletionList.items :=
       [item "div" (Some vscode.CompletionItemKind.Property); item "span" None] |}.

Definition cssItems : vscode.CompletionList.t :=
  {| vscode.CompletionList.isIncomplete := true;
     vscode.CompletionList.items :=
       [item "color" (Some vscode.CompletionItemKind.Color)] |}.

Definition divHover : vscode.Hover.t :=
  {| vscode.Hover.contents :=
       vscode.HoverArray
         [vscode.HoverObject (lit "html") (lit "<div>");
          vscode.HoverString (lit "A generic container.")];
     vscode.Hover.range := Some (vscode.Range.mk (at_ 0 1) (at_ 0 4)) |}.

(** An HTML engine that completes with [htmlItems], hovers with
    [divHover] and whose formatter proposes to empty the range it is
    given. *)
Definition html : HtmlLanguageService.t unit :=
  {| HtmlLanguageService.parseHTMLDocument := fun _ => tt;
     HtmlLanguageService.doComplete := fun _ _ _ => Some htmlItems;
     HtmlLanguageService.doHover := fun _ _ _ => Some divHover;
     HtmlLanguageService.format :=
       fun _ range _ => [vscode.TextEdit.mk range []] |}.

Definition css : unit -> CssLanguageService.t unit :=
  fun _ =>
    {| CssLanguageService.parseStylesheet := fun _ => tt;
       CssLanguageService.doComplete := fun _ _ _ => Some cssItems |}.

Definition styled : StyledTemplateLanguageService.t :=
  {| StyledTemplateLanguageService.getQuickInfoAtPosition := fun _ _ => None |}.

Definition regions
  : HtmlLanguageService.t unit -> vscode.TextDocument.t -> HTMLDocumentRegions.t :=
  fun _ _ =>
    {| HTMLDocumentRegions.getLanguageAtPosition :=
         fun p =>
           if vscode.Position.line p =? 0 then lit "html"
           else if vscode.Position.line p =? 1 then lit "css"
           else lit "none" |}.

Definition enabled : TsHtmlPluginConfiguration.t :=
  TsHtmlPluginConfiguration.mk (TsHtmlPluginConfiguration.mkFormat true).

Definition service : @HtmlTemplateLanguageService unit unit :=
  newService enabled html styled.

Definition settings : ts.EditorSettings.t :=
  ts.EditorSettings.mk 4 (Some true).

Definition divText : jsstring := lit "<div></div>".

(** The fragment of the formatting example of the specification. *)
Definition paddedText : jsstring :=
  [LF; 32; 32]%N ++ lit "<div></div>" ++ [LF; 32; 32]%N.


(** The hover value of the cleanup example of the specification. *)
Definition styleValue : jsstring :=
  lit "<style>" ++ [LF; 32; 32; 32; 32]%N ++ lit "color: red;".

(** A hover value with the style tag in the middle. *)
Definition innerStyleValue : jsstring :=
  lit "a<style>" ++ [LF; 32]%N ++ lit "b".

End Example.

(** * The vocabulary of the statements *)

(** The three keys of a request agree with those of another one. *)
Definition sameKeys (c : TemplateContext.t) (p : vscode.Position.t)
           (c0 : TemplateContext.t) (p0 : vscode.Position.t) : Prop :=
  TemplateContext.fileName c = TemplateContext.fileName c0 /\
  vscode.Position.line p = vscode.Position.line p0 /\
  vscode.Position.character p = vscode.Position.character p0 /\
  TemplateContext.text c = TemplateContext.text c0.

(** The table of the specification, from sub-language kind to host
    kind. *)
Definition kindTable : list (Z * ts.ScriptElementKind.t) :=
  [ (vscode.CompletionItemKind.Method, ts.ScriptElementKind.memberFunctionElement);
    (vscode.CompletionItemKind.Function_, ts.ScriptElementKind.functionElement);
    (vscode.CompletionItemKind.Constructor,
     ts.ScriptElementKind.constructorImplementationElement);
    (vscode.CompletionItemKind.Field, ts.ScriptElementKind.variableElement);
    (vscode.CompletionItemKind.Variable_, ts.ScriptElementKind.variableElement);
    (vscode.CompletionItemKind.Class_, ts.ScriptElementKind.classElement);
    (vscode.CompletionItemKind.Interface, ts.ScriptElementKind.interfaceElement);
    (vscode.CompletionItemKind.Module_, ts.ScriptElementKind.moduleElement);
    (vscode.CompletionItemKind.File, ts.ScriptElementKind.moduleElement);
    (vscode.CompletionItemKind.Property, ts.ScriptElementKind.memberVariableElement);
    (vscode.CompletionItemKind.Unit, ts.ScriptElementKind.constElement);
    (vscode.CompletionItemKind.Value, ts.ScriptElementKind.constElement);
    (vscode.CompletionItemKind.Color, ts.ScriptElementKind.constElement);
    (vscode.CompletionItemKind.Enum, ts.ScriptElementKind.enumElement);
    (vscode.CompletionItemKind.Keyword, ts.ScriptElementKind.keyword);
    (vscode.CompletionItemKind.Reference, ts.ScriptElementKind.alias) ].

(** Look a kind up in a table, with [unknown] for a kind that has no
    row. *)
Fixpoint lookupKind (table : list (Z * ts.ScriptElementKind.t)) (kind : Z)
  : ts.ScriptElementKind.t :=
  match table with
  | [] => ts.ScriptElementKind.unknown
  | (k, host) :: rest => if kind =? k then host else lookupKind rest kind
  end.

(** The tag the classifier gives to a request, for the HTML engine
    [html] of the instance. *)
Definition tagOf {HTMLDocument : Type}
           (getDocumentRegions :
              HtmlLanguageService.t HTMLDocument -> vscode.TextDocument.t ->
              HTMLDocumentRegions.t)
           (html : HtmlLanguageService.t HTMLDocument)
           (request : TemplateContext.t * vscode.Position.t) : jsstring :=
  HTMLDocumentRegions.getLanguageAtPosition
    (getDocumentRegions html (createVirtualDocument (fst request))) (snd request).

(** Whatever the cache of [this] answers for the request [(c, p)] is the
    empty list. *)
Definition onlyEmpty {HTMLDocument Stylesheet : Type}
           (c : TemplateContext.t) (p : vscode.Position.t)
           (html : HtmlLanguageService.t HTMLDocument)
           (this : @HtmlTemplateLanguageService HTMLDocument Stylesheet) : Prop :=
  htmlLanguageService this = html /\
  forall l, CompletionsCache.getCached (_completionsCache this) c p = Some l ->
            l = emptyCompletionList.

(** The values of the objects of a hover content, in the order the
    translator meets them, and its plain strings likewise. *)
Fixpoint headerValues (hoverContents : vscode.HoverContents) : list jsstring :=
  match hoverContents with
  | vscode.HoverString _ => []
  | vscode.HoverArray l => flat_map headerValues l
  | vscode.HoverObject _ value => [value]
  end.

Fixpoint docStrings (hoverContents : vscode.HoverContents) : list jsstring :=
  match hoverContents with
  | vscode.HoverString s => [s]
  | vscode.HoverArray l => flat_map docStrings l
  | vscode.HoverObject _ _ => []
  end.

(** The cosmetic cleanup of a CSS hover value. *)
Definition removeStyleDeclaration (value : jsstring) : jsstring :=
  str_replace value re_styleDeclaration (lit "").

(** What the translator shows of a value under a language tag. *)
Definition shownValue (languageId : jsstring) (value : jsstring) : jsstring :=
  if str_eqb languageId (lit "css") then removeStyleDeclaration value else value.

(** A hover with a single object as content. *)
Definition objectHover (tag value : jsstring) (range : option vscode.Range.t)
  : vscode.Hover.t :=
  {| vscode.Hover.contents := vscode.HoverObject tag value;
     vscode.Hover.range := range |}.

(** The number of occurrences of the letter n in a text. *)
Definition countLetterN (text : jsstring) : nat :=
  count_occ N.eq_dec text 110%N.

(** The number of occurrences of the two-character sequence made of a
    backslash and the letter n. *)
Fixpoint countEscapeSequence (text : jsstring) : nat :=
  match text with
  | [] => O
  | a :: rest =>
      match rest with
      | b :: rest' =>
          if ((a =? 92) && (b =? 110))%N then S (countEscapeSequence rest')
          else countEscapeSequence rest
      | [] => O
      end
  end.

(** The line count as the specification describes it: the text is split
    on the escape sequence, so that a text without it counts as one
    piece. *)
Definition escapeSplitLineCount : Prop :=
  forall context : TemplateContext.t,
    vscode.TextDocument.lineCount (createVirtualDocument context)
    = Z.of_nat (countEscapeSequence (TemplateContext.text context)) + 2.

(** [s] starts with the characters of [pattern], each in lower or upper
    case. *)
Fixpoint startsWithAnyCase (pattern s : jsstring) : bool :=
  match pattern, s with
  | [], _ => true
  | ch :: pattern', x :: s' =>
      ((x =? ch) || (x =? ascii_upper ch))%N && startsWithAnyCase pattern' s'
  | _ :: _, [] => false
  end.

(** [s] starts with the style tag, a line feed and at least one
    whitespace character: the prefix that the cleanup is about. *)
Definition styleStartsHere (s : jsstring) : bool :=
  startsWithAnyCase (lit "<style>") s
  && match skipn 7 s with
     | l :: w :: _ => (l =? LF)%N && is_space w
     | _ => false
     end.

(** That prefix occurs somewhere in the value. *)
Fixpoint styleOccurs (value : jsstring) : bool :=
  match value with
  | [] => false
  | _ :: rest => styleStartsHere value || styleOccurs rest
  end.

(** The cleanup as the specification words it: a CSS hover value that
    does not start with the prefix is shown unchanged. *)
Definition prefixOnlyCleanup : Prop :=
  forall (tag value : jsstring) (range : option vscode.Range.t)
         (position : vscode.Position.t) (context : TemplateContext.t),
    styleStartsHere value = false ->
    ts.QuickInfo.displayParts
      (translateHover (objectHover tag value range) position context (lit "css"))
    = [unknownPart value].

(** [pre] is a prefix of the text made of whitespace only that is empty
    or ends in a line feed: a run of all-whitespace lines at the start
    of the text. *)
Definition blankPrefix (text pre : jsstring) : Prop :=
  (exists rest, text = pre ++ rest)
  /\ forallb is_space pre = true
  /\ (pre = [] \/ last pre 0%N = LF).

Definition longestBlankPrefix (text pre : jsstring) : Prop :=
  blankPrefix text pre
  /\ forall pre', blankPrefix text pre' -> (List.length pre' <= List.length pre)%nat.

(** [suf] is a suffix of the text made of whitespace only that is empty
    or starts with a line feed: what follows the last line that is not
    blank, from the line feed that ends it. *)
Definition blankSuffix (text suf : jsstring) : Prop :=
  (exists before, text = before ++ suf)
  /\ forallb is_space suf = true
  /\ (suf = [] \/ hd 0%N suf = LF).

Definition longestBlankSuffix (text suf : jsstring) : Prop :=
  blankSuffix text suf
  /\ forall suf', blankSuffix text suf' -> (List.length suf' <= List.length suf)%nat.

(** The edits of the formatter for the range from [start] to [end_],
    translated to text changes of the host. *)
Definition formatRange {HTMLDocument Stylesheet : Type}
           (this : @HtmlTemplateLanguageService HTMLDocument Stylesheet)
           (context : TemplateContext.t) (start end_ : Z)
           (settings : ts.EditorSettings.t) : list ts.TextChange.t :=
  map (fun vsedit =>
         {| ts.TextChange.span := toTsSpan context (vscode.TextEdit.range vsedit);
            ts.TextChange.newText := vscode.TextEdit.newText vsedit |})
      (HtmlLanguageService.format (htmlLanguageService this)
         (createVirtualDocument context) (toVsRange context start end_)
         (formatOptions settings)).





(** What a quick-info request asks of [translateHover]: a hover and the
    language tag handed over with it. *)
Record TranslateHoverCall : Type := mkCall {
  call_hover : vscode.Hover.t;
  call_languageId : jsstring
}.

(** The call of [translateHover] that [getQuickInfoAtPosition] makes for
    a position, if it makes one: the hover of the HTML engine, in the
    [html] branch of the [switch]. *)
Definition translateHoverCall {HTMLDocument Stylesheet : Type}
           (getDocumentRegions :
              HtmlLanguageService.t HTMLDocument -> vscode.TextDocument.t ->
              HTMLDocumentRegions.t)
           (this : @HtmlTemplateLanguageService HTMLDocument Stylesheet)
           (context : TemplateContext.t) (position : vscode.Position.t)
  : option TranslateHoverCall :=
  let htmlDoc := createVirtualDocument context in
  let languageId := languageAt getDocumentRegions this context position in
  if str_eqb languageId (lit "html") then
    option_map (fun hover => mkCall hover languageId)
               (HtmlLanguageService.doHover (htmlLanguageService this) htmlDoc position
                  (HtmlLanguageService.parseHTMLDocument (htmlLanguageService this)
                                                         htmlDoc))
  else None.

(** The order of positions in a document: first by line, then by
    column. *)
Definition atOrBefore (p q : vscode.Position.t) : Prop :=
  vscode.Position.line p < vscode.Position.line q
  \/ (vscode.Position.line p = vscode.Position.line q
      /\ vscode.Position.character p <= vscode.Position.character q).

Definition strictlyBefore (p q : vscode.Position.t) : Prop :=
  vscode.Position.line p < vscode.Position.line q
  \/ (vscode.Position.line p = vscode.Position.line q
      /\ vscode.Position.character p < vscode.Position.character q).

(** The folding range that an engine reports between the positions of two
    offsets of the fragment. *)
Definition foldingBetween (context : TemplateContext.t) (offsets : Z * Z)
  : vscode.FoldingRange.t :=
  let s := TemplateContext.toPosition context (fst offsets) in
  let e := TemplateContext.toPosition context (snd offsets) in
  {| vscode.FoldingRange.startLine := vscode.Position.line s;
     vscode.FoldingRange.startCharacter := Some (vscode.Position.character s);
     vscode.FoldingRange.endLine := vscode.Position.line e;
     vscode.FoldingRange.endCharacter := Some (vscode.Position.character e) |}.

(** The host span between two offsets. *)
Definition spanBetween (offsets : Z * Z) : ts.TextSpan.t :=
  {| ts.TextSpan.start := fst offsets;
     ts.TextSpan.length := snd offsets - fst offsets |}.

(** The number of whitespace characters a text starts with. *)
Fixpoint leadingSpaces (s : jsstring) : nat :=
  match s with
  | c :: rest => if is_space c then S (leadingSpaces rest) else O
  | [] => O
  end.

(** The host span of a folding range: from the offset of its start
    position to the offset of its end position, a missing column
    counting as column 0. *)
Definition foldingSpan (context : TemplateContext.t)
           (range : vscode.FoldingRange.t) : ts.TextSpan.t :=
  let column (x : option Z) := match x with Some n => n | None => 0 end in
  let startOffset :=
    TemplateContext.toOffset context
      (vscode.Position.mk (vscode.FoldingRange.startLine range)
                          (column (vscode.FoldingRange.startCharacter range))) in
  let endOffset :=
    TemplateContext.toOffset context
      (vscode.Position.mk (vscode.FoldingRange.endLine range)
                          (column (vscode.FoldingRange.endCharacter range))) in
  {| ts.TextSpan.start := startOffset;
     ts.TextSpan.length := endOffset - startOffset |}.

(** * Properties *)

(** ** Strings and positions *)

Lemma str_eqb_eq (a b : jsstring) : str_eqb a b = true <-> a = b.
Proof.
  revert b; induction a as [|x a IH]; intros [|y b]; simpl;
    try (split; (discriminate || reflexivity)).
  rewrite andb_true_iff, N.eqb_eq, IH.
  split; [intros [-> ->]; reflexivity | intros H; inversion H; auto].
Qed.

Lemma str_eqb_refl (a : jsstring) : str_eqb a a = true.
Proof. apply str_eqb_eq; reflexivity. Qed.

Lemma str_eqb_neq (a b : jsstring) : str_eqb a b = false <-> a <> b.
Proof.
  rewrite <- not_true_iff_false, str_eqb_eq; reflexivity.
Qed.

Lemma arePositionsEqual_eq (p q : vscode.Position.t) :
  arePositionsEqual p q = true <->
  vscode.Position.line p = vscode.Position.line q /\
  vscode.Position.character p = vscode.Position.character q.
Proof.
  unfold arePositionsEqual.
  rewrite andb_true_iff, !Z.eqb_eq; reflexivity.
Qed.

Lemma position_ext (p q : vscode.Position.t) :
  vscode.Position.line p = vscode.Position.line q ->
  vscode.Position.character p = vscode.Position.character q ->
  p = q.
Proof. destruct p, q; simpl; intros -> ->; reflexivity. Qed.

(** ** The completion cache *)


Lemma sameKeys_dec c p c0 p0 : {sameKeys c p c0 p0} + {~ sameKeys c p c0 p0}.
Proof.
  unfold sameKeys.
  destruct (list_eq_dec N.eq_dec (TemplateContext.fileName c)
                        (TemplateContext.fileName c0));
    [|right; tauto].
  destruct (Z.eq_dec (vscode.Position.line p) (vscode.Position.line p0));
    [|right; tauto].
  destruct (Z.eq_dec (vscode.Position.character p) (vscode.Position.character p0));
    [|right; tauto].
  destruct (list_eq_dec N.eq_dec (TemplateContext.text c)
                        (TemplateContext.text c0));
    [left; tauto|right; tauto].
Defined.

Lemma getCached_updateCached_hit cache c0 p0 l0 c p :
  sameKeys c p c0 p0 ->
  CompletionsCache.getCached
    (CompletionsCache.updateCached cache c0 p0 l0) c p = Some l0.
Proof.
  intros (Hf & Hl & Hc & Ht).
  unfold CompletionsCache.getCached, CompletionsCache.updateCached; simpl.
  rewrite Hf, Ht, !str_eqb_refl.
  replace (arePositionsEqual p p0) with true; [reflexivity|].
  symmetry; apply arePositionsEqual_eq; auto.
Qed.

Lemma getCached_updateCached_miss cache c0 p0 l0 c p :
  ~ sameKeys c p c0 p0 ->
  CompletionsCache.getCached
    (CompletionsCache.updateCached cache c0 p0 l0) c p = None.
Proof.
  intros Hn.
  unfold CompletionsCache.getCached, CompletionsCache.updateCached; simpl.
  destruct (str_eqb (TemplateContext.fileName c) (TemplateContext.fileName c0))
    eqn:Hf; simpl; [|reflexivity].
  destruct (arePositionsEqual p p0) eqn:Hp; simpl; [|reflexivity].
  destruct (str_eqb (TemplateContext.text c) (TemplateContext.text c0))
    eqn:Ht; simpl; [|reflexivity].
  exfalso; apply Hn.
  apply str_eqb_eq in Hf, Ht. apply arePositionsEqual_eq in Hp.
  unfold sameKeys; tauto.
Qed.

(** A hit tells that the cache holds exactly the keys of the request. *)
Lemma getCached_Some cache c p l :
  CompletionsCache.getCached cache c p = Some l ->
  cache = CompletionsCache.updateCached cache c p l.
Proof.
  destruct cache as [f q t o].
  unfold CompletionsCache.getCached, CompletionsCache.updateCached; simpl.
  destruct o as [l'|]; [|discriminate].
  destruct f as [f|]; simpl; [|discriminate].
  destruct (str_eqb (TemplateContext.fileName c) f) eqn:Hf; [|discriminate].
  destruct q as [q|]; simpl; [|discriminate].
  destruct (arePositionsEqual p q) eqn:Hp; [|discriminate].
  destruct t as [t|]; simpl; [|discriminate].
  destruct (str_eqb (TemplateContext.text c) t) eqn:Ht; [|discriminate].
  intros H; inversion H; subst l'.
  apply str_eqb_eq in Hf, Ht; apply arePositionsEqual_eq in Hp.
  destruct Hp as [Hl Hc].
  rewrite (position_ext p q Hl Hc); subst; reflexivity.
Qed.

Lemma getCached_new c p :
  CompletionsCache.getCached CompletionsCache.new c p = None.
Proof. reflexivity. Qed.

Section ServiceFacts.

Context {HTMLDocument Stylesheet : Type}.
Variable getDocumentRegions :
  HtmlLanguageService.t HTMLDocument -> vscode.TextDocument.t ->
  HTMLDocumentRegions.t.
Variable getCSSLanguageService : unit -> CssLanguageService.t Stylesheet.

Local Abbreviation Service := (@HtmlTemplateLanguageService HTMLDocument Stylesheet).
Local Abbreviation getItems := (getCompletionItems getDocumentRegions getCSSLanguageService).
Local Abbreviation compute := (computeCompletions getDocumentRegions getCSSLanguageService).

Lemma cssLanguageService_fields (this : Service) :
  let this' := snd (cssLanguageService getCSSLanguageService this) in
  htmlLanguageService this' = htmlLanguageService this /\
  _completionsCache this' = _completionsCache this /\
  configuration this' = configuration this /\
  styledLanguageService this' = styledLanguageService this.
Proof.
  unfold cssLanguageService.
  destruct (_cssLanguageService this); simpl; auto.
Qed.

Lemma computeCompletions_fields (this : Service) c p :
  let this' := snd (compute this c p) in
  htmlLanguageService this' = htmlLanguageService this /\
  _completionsCache this' = _completionsCache this.
Proof.
  unfold computeCompletions.
  destruct (str_eqb _ (lit "html")); simpl; [auto|].
  destruct (str_eqb _ (lit "css")); simpl; [|auto].
  pose proof (cssLanguageService_fields this) as H; simpl in H.
  destruct (cssLanguageService getCSSLanguageService this) as [css this'].
  simpl in *; tauto.
Qed.

(** On a miss the list is computed afresh and all four members of the
    cache are overwritten. *)
Lemma getCompletionItems_miss (this : Service) c p :
  CompletionsCache.getCached (_completionsCache this) c p = None ->
  getItems this c p =
  (fst (compute this c p),
   set_completionsCache (snd (compute this c p))
     (CompletionsCache.mk (Some (TemplateContext.fileName c)) (Some p)
                          (Some (TemplateContext.text c))
                          (Some (fst (compute this c p))))).
Proof.
  intros H. unfold getCompletionItems. rewrite H.
  destruct (compute this c p) as [l this']; reflexivity.
Qed.

Lemma getCompletionItems_hit (this : Service) c p l :
  CompletionsCache.getCached (_completionsCache this) c p = Some l ->
  getItems this c p = (l, this).
Proof.
  intros H. unfold getCompletionItems. rewrite H. reflexivity.
Qed.

(** After any call, the cache holds the keys of that call and the list
    the call returned. *)
Lemma getCompletionItems_cache (this : Service) c p :
  _completionsCache (snd (getItems this c p)) =
  CompletionsCache.mk (Some (TemplateContext.fileName c)) (Some p)
                      (Some (TemplateContext.text c))
                      (Some (fst (getItems this c p))).
Proof.
  destruct (CompletionsCache.getCached (_completionsCache this) c p) as [l|] eqn:H.
  - rewrite (getCompletionItems_hit _ _ _ _ H); simpl.
    apply getCached_Some in H. exact H.
  - rewrite (getCompletionItems_miss _ _ _ H); reflexivity.
Qed.

Lemma getCompletionItems_htmlLanguageService (this : Service) c p :
  htmlLanguageService (snd (getItems this c p)) = htmlLanguageService this.
Proof.
  destruct (CompletionsCache.getCached (_completionsCache this) c p) as [l|] eqn:H.
  - rewrite (getCompletionItems_hit _ _ _ _ H); reflexivity.
  - rewrite (getCompletionItems_miss _ _ _ H); simpl.
    apply (computeCompletions_fields this c p).
Qed.

(** Outside the [html] and [css] regions nothing is asked of an engine. *)
Lemma computeCompletions_none (this : Service) c p :
  str_eqb (languageAt getDocumentRegions this c p) (lit "html") = false ->
  str_eqb (languageAt getDocumentRegions this c p) (lit "css") = false ->
  compute this c p = (emptyCompletionList, this).
Proof.
  unfold languageAt, computeCompletions. intros -> ->. reflexivity.
Qed.

End ServiceFacts.

(** ** C1: the single-slot completion cache *)

(** C1.  After any completion computation for [(c0, p0)], the cache it
    leaves answers a request [(c, p)] with the list of that computation
    exactly when file name, line, character and text of the two requests
    are equal, and with nothing otherwise.  On equal keys the next
    [getCompletionItems] returns that list and leaves the instance alone,
    whatever its engines would answer now; on any other keys it computes
    the list afresh and overwrites the three keys and the stored list. *)
Theorem C1_cache_hit_iff_keys_equal
        {HTMLDocument Stylesheet : Type}
        (gdr gdr' : HtmlLanguageService.t HTMLDocument -> vscode.TextDocument.t ->
                    HTMLDocumentRegions.t)
        (gcss gcss' : unit -> CssLanguageService.t Stylesheet)
        (this this' : @HtmlTemplateLanguageService HTMLDocument Stylesheet)
        (c0 c : TemplateContext.t) (p0 p : vscode.Position.t) :
  let r0 := getCompletionItems gdr gcss this c0 p0 in
  let fresh := computeCompletions gdr' gcss' this' c p in
  _completionsCache this' = _completionsCache (snd r0) ->
  (CompletionsCache.getCached (_completionsCache this') c p = Some (fst r0)
   <-> sameKeys c p c0 p0)
  /\ (CompletionsCache.getCached (_completionsCache this') c p = None
      <-> ~ sameKeys c p c0 p0)
  /\ (sameKeys c p c0 p0 ->
      getCompletionItems gdr' gcss' this' c p = (fst r0, this'))
  /\ (~ sameKeys c p c0 p0 ->
      getCompletionItems gdr' gcss' this' c p =
      (fst fresh,
       set_completionsCache (snd fresh)
         (CompletionsCache.mk (Some (TemplateContext.fileName c)) (Some p)
                              (Some (TemplateContext.text c))
                              (Some (fst fresh))))).
Proof.
  intros r0 fresh Hcache.
  assert (Hc : _completionsCache this' =
               CompletionsCache.updateCached (_completionsCache this') c0 p0 (fst r0)).
  { rewrite Hcache. unfold r0. rewrite getCompletionItems_cache. reflexivity. }
  assert (Hhit : sameKeys c p c0 p0 ->
                 CompletionsCache.getCached (_completionsCache this') c p
                 = Some (fst r0)).
  { intros K. rewrite Hc. apply getCached_updateCached_hit; exact K. }
  assert (Hmiss : ~ sameKeys c p c0 p0 ->
                  CompletionsCache.getCached (_completionsCache this') c p = None).
  { intros K. rewrite Hc. apply getCached_updateCached_miss; exact K. }
  split; [split|split; [split|split]].
  - intros H. destruct (sameKeys_dec c p c0 p0) as [K|K]; [exact K|].
    rewrite (Hmiss K) in H; discriminate.
  - exact Hhit.
  - intros H K. rewrite (Hhit K) in H; discriminate.
  - exact Hmiss.
  - intros K. apply getCompletionItems_hit, Hhit, K.
  - intros K. apply getCompletionItems_miss, Hmiss, K.
Qed.

(** The statement at the example instance: a second request with the
    keys of the first one is served from the cache. *)
Lemma C1_cache_witness :
  let r0 := getCompletionItems Example.regions Example.css Example.service
              (Example.context (lit "a.ts") Example.divText) (Example.at_ 0 1) in
  _completionsCache (snd r0) = _completionsCache (snd r0)
  /\ getCompletionItems Example.regions Example.css (snd r0)
       (Example.context (lit "a.ts") Example.divText) (Example.at_ 0 1)
     = (Example.htmlItems, snd r0).
Proof.
  split; [reflexivity|].
  refine (proj1 (proj2 (proj2
            (C1_cache_hit_iff_keys_equal
               Example.regions Example.regions Example.css Example.css
               Example.service
               (snd (getCompletionItems Example.regions Example.css Example.service
                       (Example.context (lit "a.ts") Example.divText)
                       (Example.at_ 0 1)))
               (Example.context (lit "a.ts") Example.divText)
               (Example.context (lit "a.ts") Example.divText)
               (Example.at_ 0 1) (Example.at_ 0 1) eq_refl))) _).
  repeat split.
Defined.

(** ** C2: no language at the position *)

Section NoLanguage.

Context {HTMLDocument Stylesheet : Type}.
Variable gdr :
  HtmlLanguageService.t HTMLDocument -> vscode.TextDocument.t ->
  HTMLDocumentRegions.t.
Variable gcss : unit -> CssLanguageService.t Stylesheet.
Variables (c : TemplateContext.t) (p : vscode.Position.t).
Variable html : HtmlLanguageService.t HTMLDocument.

Local Abbreviation Service := (@HtmlTemplateLanguageService HTMLDocument Stylesheet).

Local Abbreviation tagOf := (tagOf gdr html).
Local Abbreviation onlyEmpty := (@onlyEmpty HTMLDocument Stylesheet c p html).

Lemma serveCompletions_htmlLanguageService requests : forall this : Service,
  htmlLanguageService (serveCompletions gdr gcss this requests)
  = htmlLanguageService this.
Proof.
  induction requests as [|request requests IH]; intros this; simpl.
  - reflexivity.
  - rewrite IH. apply getCompletionItems_htmlLanguageService.
Qed.

Hypothesis not_html : str_eqb (tagOf (c, p)) (lit "html") = false.
Hypothesis not_css : str_eqb (tagOf (c, p)) (lit "css") = false.

Lemma onlyEmpty_step (this : Service) request :
  (sameKeys (fst request) (snd request) c p -> tagOf request = tagOf (c, p)) ->
  onlyEmpty this ->
  onlyEmpty (snd (getCompletionItems gdr gcss this (fst request) (snd request))).
Proof.
  destruct request as [c' p']; simpl.
  intros Hstable [Hhtml Hinv].
  split.
  { rewrite getCompletionItems_htmlLanguageService; exact Hhtml. }
  destruct (CompletionsCache.getCached (_completionsCache this) c' p')
    as [l'|] eqn:Hc.
  - rewrite (getCompletionItems_hit _ _ _ _ _ _ Hc); simpl. exact Hinv.
  - intros l.
    rewrite (getCompletionItems_miss _ _ _ _ _ Hc); simpl.
    change (CompletionsCache.mk (Some (TemplateContext.fileName c')) (Some p')
              (Some (TemplateContext.text c'))
              (Some (fst (computeCompletions gdr gcss this c' p'))))
      with (CompletionsCache.updateCached (_completionsCache this) c' p'
              (fst (computeCompletions gdr gcss this c' p'))).
    destruct (sameKeys_dec c p c' p') as [K|K].
    + rewrite (getCached_updateCached_hit _ _ _ _ _ _ K).
      intros H; inversion H; clear H.
      assert (K' : sameKeys c' p' c p).
      { unfold sameKeys in *; intuition congruence. }
      specialize (Hstable K').
      rewrite computeCompletions_none; [reflexivity| |];
        unfold languageAt; rewrite Hhtml;
        change (str_eqb (tagOf (c', p')) (lit "html") = false)
        || change (str_eqb (tagOf (c', p')) (lit "css") = false);
        rewrite Hstable; assumption.
    + rewrite (getCached_updateCached_miss _ _ _ _ _ _ K). discriminate.
Qed.

Lemma onlyEmpty_serve requests : forall this : Service,
  (forall request, In request requests ->
      sameKeys (fst request) (snd request) c p -> tagOf request = tagOf (c, p)) ->
  onlyEmpty this ->
  onlyEmpty (serveCompletions gdr gcss this requests).
Proof.
  induction requests as [|request requests IH]; intros this Hstable Hinv.
  - exact Hinv.
  - simpl. apply IH.
    + intros r Hr. apply Hstable. right; exact Hr.
    + apply onlyEmpty_step; [apply Hstable; left; reflexivity | exact Hinv].
Qed.

Lemma onlyEmpty_result (this : Service) :
  onlyEmpty this ->
  fst (getCompletionItems gdr gcss this c p) = emptyCompletionList.
Proof.
  intros [Hhtml Hinv].
  destruct (CompletionsCache.getCached (_completionsCache this) c p)
    as [l|] eqn:Hc.
  - rewrite (getCompletionItems_hit _ _ _ _ _ _ Hc); simpl. apply Hinv; reflexivity.
  - rewrite (getCompletionItems_miss _ _ _ _ _ Hc); simpl.
    rewrite computeCompletions_none; [reflexivity| |];
      unfold languageAt; rewrite Hhtml; assumption.
Qed.

End NoLanguage.

(** C2.  On an instance that has served any list of earlier completion
    requests, a completion request at a position that the classifier
    gives neither to [html] nor to [css] returns the empty completion
    list: [isIncomplete] is false and there is no item; the completion
    info built from it has no entry.  The list is a value of its type,
    never an absent one.  Earlier requests with the same file name,
    position and text are assumed to be classified as this one is, the
    classification being a function of text and position. *)
Theorem C2_no_language_empty_list
        {HTMLDocument Stylesheet : Type}
        (gdr : HtmlLanguageService.t HTMLDocument -> vscode.TextDocument.t ->
               HTMLDocumentRegions.t)
        (gcss : unit -> CssLanguageService.t Stylesheet)
        (configuration : TsHtmlPluginConfiguration.t)
        (html : HtmlLanguageService.t HTMLDocument)
        (styled : StyledTemplateLanguageService.t)
        (requests : list (TemplateContext.t * vscode.Position.t))
        (c : TemplateContext.t) (p : vscode.Position.t) :
  let this := serveCompletions gdr gcss
                (newService configuration html styled) requests in
  (forall request, In request requests ->
      sameKeys (fst request) (snd request) c p ->
      tagOf gdr html request = tagOf gdr html (c, p)) ->
  str_eqb (languageAt gdr this c p) (lit "html") = false ->
  str_eqb (languageAt gdr this c p) (lit "css") = false ->
  let completions := fst (getCompletionItems gdr gcss this c p) in
  completions = emptyCompletionList
  /\ vscode.CompletionList.isIncomplete completions = false
  /\ vscode.CompletionList.items completions = []
  /\ ts.CompletionInfo.entries
       (fst (getCompletionsAtPosition gdr gcss this c p)) = [].
Proof.
  intros this Hstable Hh Hc completions.
  assert (Hhtml : htmlLanguageService this = html).
  { unfold this. rewrite serveCompletions_htmlLanguageService. reflexivity. }
  unfold languageAt in Hh, Hc. rewrite Hhtml in Hh, Hc.
  change (str_eqb (tagOf gdr html (c, p)) (lit "html") = false) in Hh.
  change (str_eqb (tagOf gdr html (c, p)) (lit "css") = false) in Hc.
  assert (Hthis : onlyEmpty c p html this).
  { unfold this. apply onlyEmpty_serve with (gdr := gdr); auto.
    split; [reflexivity|]. simpl. intros l H.
    rewrite getCached_new in H. discriminate H. }
  assert (E : completions = emptyCompletionList).
  { unfold completions.
    apply onlyEmpty_result with (html := html); assumption. }
  split; [exact E|]. split; [rewrite E; reflexivity|].
  split; [rewrite E; reflexivity|].
  unfold getCompletionsAtPosition.
  unfold completions in E.
  destruct (getCompletionItems gdr gcss this c p) as [l t].
  simpl in E. rewrite E. reflexivity.
Qed.

(** The statement at the example instance: the request for line 2 is
    repeated, so that the second one is answered by the cache. *)
Lemma C2_no_language_witness :
  let c := Example.context (lit "a.ts") Example.divText in
  let requests := [(c, Example.at_ 0 1); (c, Example.at_ 2 0)] in
  let this := serveCompletions Example.regions Example.css
                (newService Example.enabled Example.html Example.styled)
                requests in
  str_eqb (languageAt Example.regions this c (Example.at_ 2 0)) (lit "html") = false
  /\ str_eqb (languageAt Example.regions this c (Example.at_ 2 0)) (lit "css") = false
  /\ fst (getCompletionItems Example.regions Example.css this c (Example.at_ 2 0))
     = emptyCompletionList
  /\ ts.CompletionInfo.entries
       (fst (getCompletionsAtPosition Example.regions Example.css this c
                                      (Example.at_ 2 0))) = [].
Proof.
  intros c requests this.
  split; [reflexivity|]. split; [reflexivity|].
  assert (Hstable : forall request, In request requests ->
            sameKeys (fst request) (snd request) c (Example.at_ 2 0) ->
            tagOf Example.regions Example.html request
            = tagOf Example.regions Example.html (c, Example.at_ 2 0)).
  { intros request [E|[E|[]]] K; subst request.
    - destruct K as (_ & K & _). discriminate K.
    - reflexivity. }
  pose proof (C2_no_language_empty_list
                Example.regions Example.css Example.enabled Example.html
                Example.styled requests c (Example.at_ 2 0)
                Hstable eq_refl eq_refl) as H.
  split; [exact (proj1 H) | exact (proj2 (proj2 (proj2 H)))].
Defined.

(** ** C3: the translation of completion item kinds *)


(** C3.  The translation of a completion item kind is a total function
    that agrees with the table of the specification on every number: a
    kind with a row is sent to the host kind of its row, and every other
    number, among them the enumerated kinds [Snippet], [Text], [Folder],
    [EnumMember], [Constant], [Struct], [Event], [Operator] and
    [TypeParameter], is sent to [unknown]. *)
Theorem C3_kind_translation_total :
  (forall kind : Z,
      translateionCompletionItemKind kind = lookupKind kindTable kind)
  /\ (forall kind : Z,
        ~ In kind (map fst kindTable) ->
        translateionCompletionItemKind kind = ts.ScriptElementKind.unknown)
  /\ (forall kind : Z,
        In kind vscode.CompletionItemKind.all ->
        ~ In kind (map fst kindTable) ->
        In kind [vscode.CompletionItemKind.Text; vscode.CompletionItemKind.Snippet;
                 vscode.CompletionItemKind.Folder;
                 vscode.CompletionItemKind.EnumMember;
                 vscode.CompletionItemKind.Constant;
                 vscode.CompletionItemKind.Struct; vscode.CompletionItemKind.Event;
                 vscode.CompletionItemKind.Operator;
                 vscode.CompletionItemKind.TypeParameter])
  /\ translateionCompletionItemKind vscode.CompletionItemKind.Snippet
     = ts.ScriptElementKind.unknown
  /\ translateionCompletionItemKind vscode.CompletionItemKind.Text
     = ts.ScriptElementKind.unknown.
Proof.
  assert (T : forall kind : Z,
             translateionCompletionItemKind kind = lookupKind kindTable kind).
  { intros kind. unfold translateionCompletionItemKind, kindTable, lookupKind.
    repeat match goal with
           | |- context [?a =? ?b] =>
               let E := fresh "E" in
               destruct (Z.eqb_spec a b) as [E|E];
               [try (rewrite E; reflexivity) | simpl]
           end; try reflexivity;
      unfold vscode.CompletionItemKind.Method, vscode.CompletionItemKind.Function_,
        vscode.CompletionItemKind.Constructor, vscode.CompletionItemKind.Field,
        vscode.CompletionItemKind.Variable_, vscode.CompletionItemKind.Class_,
        vscode.CompletionItemKind.Interface, vscode.CompletionItemKind.Module_,
        vscode.CompletionItemKind.File, vscode.CompletionItemKind.Property,
        vscode.CompletionItemKind.Unit, vscode.CompletionItemKind.Value,
        vscode.CompletionItemKind.Color, vscode.CompletionItemKind.Enum,
        vscode.CompletionItemKind.Keyword, vscode.CompletionItemKind.Reference
        in *; try lia. }
  split; [exact T|]. split; [|split; [|split; reflexivity]].
  - intros kind Hn. rewrite T.
    unfold kindTable in *. simpl in Hn. simpl.
    repeat match goal with
           | |- context [?a =? ?b] =>
               destruct (Z.eqb_spec a b); [exfalso; apply Hn; subst; tauto|]
           end.
    reflexivity.
  - intros kind Hall Hn. simpl in Hall, Hn.
    simpl. intuition (subst; tauto).
Qed.

(** ** Entry details *)

Lemma findByLabel_None items name :
  findByLabel items name = None <->
  forall x, In x items -> vscode.CompletionItem.label x <> name.
Proof.
  unfold findByLabel. split.
  - intros H x Hx E.
    pose proof (find_none _ _ H x Hx) as F. simpl in F.
    rewrite E, str_eqb_refl in F. discriminate.
  - intros H. induction items as [|y items IH]; simpl; [reflexivity|].
    destruct (str_eqb (vscode.CompletionItem.label y) name) eqn:E.
    + apply str_eqb_eq in E. exfalso. apply (H y); [left; reflexivity | exact E].
    + apply IH. intros x Hx. apply H. right; exact Hx.
Qed.

Lemma findByLabel_Some items name x :
  findByLabel items name = Some x ->
  In x items /\ vscode.CompletionItem.label x = name.
Proof.
  unfold findByLabel. intros H. apply find_some in H.
  destruct H as [Hin E]. apply str_eqb_eq in E. auto.
Qed.

(** C6.  [getCompletionEntryDetails] is a total function: it yields a
    details record for every instance, context, position and name.  When
    no item of the computed completion list has the name as its label,
    the record carries that name, the [unknown] kind, empty kind
    modifiers, no tag and empty documentation, and its display parts are
    made from the name alone. *)
Theorem C6_entry_details_absent_name
        {HTMLDocument Stylesheet : Type}
        (gdr : HtmlLanguageService.t HTMLDocument -> vscode.TextDocument.t ->
               HTMLDocumentRegions.t)
        (gcss : unit -> CssLanguageService.t Stylesheet)
        (this : @HtmlTemplateLanguageService HTMLDocument Stylesheet)
        (c : TemplateContext.t) (p : vscode.Position.t) (name : jsstring) :
  (forall x,
      In x (vscode.CompletionList.items (fst (getCompletionItems gdr gcss this c p))) ->
      vscode.CompletionItem.label x <> name) ->
  fst (getCompletionEntryDetails gdr gcss this c p name) =
  {| ts.CompletionEntryDetails.name := name;
     ts.CompletionEntryDetails.kind := ts.ScriptElementKind.unknown;
     ts.CompletionEntryDetails.kindModifiers := lit "";
     ts.CompletionEntryDetails.tags := [];
     ts.CompletionEntryDetails.displayParts :=
       toDisplayParts (Some (vscode.DocString name));
     ts.CompletionEntryDetails.documentation := [] |}.
Proof.
  intros H. unfold getCompletionEntryDetails.
  destruct (getCompletionItems gdr gcss this c p) as [l this'].
  simpl in H. apply findByLabel_None in H. rewrite H. reflexivity.
Qed.

(** The statement at the example instance, for a name the HTML engine
    does not offer. *)
Lemma C6_entry_details_witness :
  fst (getCompletionEntryDetails Example.regions Example.css Example.service
         (Example.context (lit "a.ts") Example.divText) (Example.at_ 0 1)
         (lit "table")) =
  {| ts.CompletionEntryDetails.name := lit "table";
     ts.CompletionEntryDetails.kind := ts.ScriptElementKind.unknown;
     ts.CompletionEntryDetails.kindModifiers := lit "";
     ts.CompletionEntryDetails.tags := [];
     ts.CompletionEntryDetails.displayParts :=
       [ts.SymbolDisplayPart.mk (lit "table") (lit "text")];
     ts.CompletionEntryDetails.documentation := [] |}.
Proof.
  apply (C6_entry_details_absent_name
           Example.regions Example.css Example.service
           (Example.context (lit "a.ts") Example.divText) (Example.at_ 0 1)
           (lit "table")).
  intros x [E|[E|[]]]; subst x; discriminate.
Defined.

(** C10.  The [kindModifiers] of a details result tell whether the name
    was found: it is the string [declare] exactly when some item of the
    computed completion list has the name as its label, and the empty
    string exactly when none has. *)
Theorem C10_kindModifiers_found_or_absent
        {HTMLDocument Stylesheet : Type}
        (gdr : HtmlLanguageService.t HTMLDocument -> vscode.TextDocument.t ->
               HTMLDocumentRegions.t)
        (gcss : unit -> CssLanguageService.t Stylesheet)
        (this : @HtmlTemplateLanguageService HTMLDocument Stylesheet)
        (c : TemplateContext.t) (p : vscode.Position.t) (name : jsstring) :
  let items :=
    vscode.CompletionList.items (fst (getCompletionItems gdr gcss this c p)) in
  let details := fst (getCompletionEntryDetails gdr gcss this c p name) in
  (ts.CompletionEntryDetails.kindModifiers details = lit "declare"
   <-> exists x, In x items /\ vscode.CompletionItem.label x = name)
  /\ (ts.CompletionEntryDetails.kindModifiers details = lit ""
      <-> forall x, In x items -> vscode.CompletionItem.label x <> name).
Proof.
  unfold getCompletionEntryDetails.
  destruct (getCompletionItems gdr gcss this c p) as [l this']; simpl.
  destruct (findByLabel (vscode.CompletionList.items l) name) as [x|] eqn:F; simpl.
  - apply findByLabel_Some in F. destruct F as [Hin E].
    split; split; intros H.
    + exists x; auto.
    + reflexivity.
    + discriminate H.
    + exfalso. apply (H x Hin E).
  - pose proof (proj1 (findByLabel_None _ _) F) as N.
    split; split; intros H.
    + discriminate H.
    + destruct H as (x & Hin & E). exfalso. apply (N x Hin E).
    + exact N.
    + reflexivity.
Qed.

(** The statement at the example instance: [div] is offered by the HTML
    engine, so its details are marked [declare]. *)
Lemma C10_kindModifiers_witness :
  ts.CompletionEntryDetails.kindModifiers
    (fst (getCompletionEntryDetails Example.regions Example.css Example.service
            (Example.context (lit "a.ts") Example.divText) (Example.at_ 0 1)
            (lit "div")))
  = lit "declare".
Proof.
  apply (proj1 (C10_kindModifiers_found_or_absent
                  Example.regions Example.css Example.service
                  (Example.context (lit "a.ts") Example.divText)
                  (Example.at_ 0 1) (lit "div"))).
  exists (Example.item "div" (Some vscode.CompletionItemKind.Property)).
  split; [left; reflexivity | reflexivity].
Defined.

(** ** Hover translation *)

(** Induction on a hover content, with the hypothesis for every member
    of an array. *)
Fixpoint HoverContents_rect' (P : vscode.HoverContents -> Prop)
         (Hs : forall s, P (vscode.HoverString s))
         (Ha : forall l, Forall P l -> P (vscode.HoverArray l))
         (Ho : forall tag value, P (vscode.HoverObject tag value))
         (h : vscode.HoverContents) {struct h} : P h :=
  match h with
  | vscode.HoverString s => Hs s
  | vscode.HoverArray l =>
      Ha l ((fix all (l : list vscode.HoverContents) : Forall P l :=
               match l with
               | [] => Forall_nil P
               | x :: l' => Forall_cons x (HoverContents_rect' P Hs Ha Ho x) (all l')
               end) l)
  | vscode.HoverObject tag value => Ho tag value
  end.

(** The translator shows every value under [shownValue] and every plain
    string as it is, both in the order of the content. *)
Lemma convertPart_parts languageId hoverContents : forall header docs,
  convertPart languageId hoverContents (header, docs) =
  (header ++ map unknownPart
             (map (shownValue languageId) (headerValues hoverContents)),
   docs ++ map unknownPart (docStrings hoverContents)).
Proof.
  induction hoverContents as [s|l IH|tag value] using HoverContents_rect';
    intros header docs.
  - simpl. rewrite app_nil_r. reflexivity.
  - simpl. revert header docs.
    induction IH as [|x l Hx _ IHl]; intros header docs; simpl.
    + rewrite !app_nil_r. reflexivity.
    + rewrite Hx, IHl. rewrite !map_app, !app_assoc. reflexivity.
  - simpl. unfold shownValue, removeStyleDeclaration.
    destruct (str_eqb languageId (lit "css")); rewrite app_nil_r; reflexivity.
Qed.

Lemma translateHover_parts hover position context languageId :
  ts.QuickInfo.displayParts (translateHover hover position context languageId)
  = map unknownPart
        (map (shownValue languageId) (headerValues (vscode.Hover.contents hover)))
  /\ ts.QuickInfo.documentation (translateHover hover position context languageId)
     = map unknownPart (docStrings (vscode.Hover.contents hover))
  /\ ts.QuickInfo.kind (translateHover hover position context languageId)
     = ts.ScriptElementKind.string
  /\ ts.QuickInfo.kindModifiers (translateHover hover position context languageId)
     = lit "".
Proof.
  unfold translateHover. rewrite convertPart_parts. simpl. auto.
Qed.

Lemma shownValue_other languageId value :
  languageId <> lit "css" -> shownValue languageId value = value.
Proof.
  intros H. unfold shownValue. apply str_eqb_neq in H. rewrite H. reflexivity.
Qed.

Lemma map_shownValue_other languageId values :
  languageId <> lit "css" -> map (shownValue languageId) values = values.
Proof.
  intros H. induction values as [|v values IH]; simpl; [reflexivity|].
  rewrite IH, shownValue_other by assumption. reflexivity.
Qed.

(** C7.  The text span of a translated hover starts at the offset of the
    start of the hover's range and is as long as the difference of the
    offsets of the end and the start of that range; for a hover without
    a range it starts at the offset of the query position and has length
    one. *)
Theorem C7_hover_text_span
        (hover : vscode.Hover.t) (position : vscode.Position.t)
        (context : TemplateContext.t) (languageId : jsstring) :
  ts.QuickInfo.textSpan (translateHover hover position context languageId) =
  match vscode.Hover.range hover with
  | Some range =>
      {| ts.TextSpan.start :=
           TemplateContext.toOffset context (vscode.Range.start range);
         ts.TextSpan.length :=
           TemplateContext.toOffset context (vscode.Range.end_ range)
           - TemplateContext.toOffset context (vscode.Range.start range) |}
  | None =>
      {| ts.TextSpan.start := TemplateContext.toOffset context position;
         ts.TextSpan.length := 1 |}
  end.
Proof.
  unfold translateHover.
  destruct (convertPart languageId (vscode.Hover.contents hover) ([], []))
    as [header docs].
  destruct (vscode.Hover.range hover); reflexivity.
Qed.

(** ** C9: quick info *)

Ltac conjuncts := repeat match goal with |- _ /\ _ => split end.

(** C9.  [getQuickInfoAtPosition] hands a hover to [translateHover] only
    with the language tag [html]: a position of the [css] region is
    answered by the styled-template service alone, a position of neither
    region has no quick info.  Every record the facade builds itself is
    therefore a translation under [html]: its kind is [string], its kind
    modifiers are empty, and its display parts are the values of the
    hover as the engine gave them, none of them rewritten. *)
Theorem C9_quick_info_translates_html_only
        {HTMLDocument Stylesheet : Type}
        (gdr : HtmlLanguageService.t HTMLDocument -> vscode.TextDocument.t ->
               HTMLDocumentRegions.t)
        (this : @HtmlTemplateLanguageService HTMLDocument Stylesheet)
        (c : TemplateContext.t) (p : vscode.Position.t) :
  let tag := languageAt gdr this c p in
  (tag = lit "css" ->
   getQuickInfoAtPosition gdr this c p =
   StyledTemplateLanguageService.getQuickInfoAtPosition
     (styledLanguageService this) c p)
  /\ (tag <> lit "html" -> tag <> lit "css" ->
      getQuickInfoAtPosition gdr this c p = None)
  /\ (tag <> lit "css" ->
      getQuickInfoAtPosition gdr this c p =
      option_map (fun call =>
                    translateHover (call_hover call) p c (call_languageId call))
                 (translateHoverCall gdr this c p))
  /\ (forall call,
        translateHoverCall gdr this c p = Some call ->
        call_languageId call = lit "html" /\ tag = lit "html")
  /\ (forall info,
        tag <> lit "css" ->
        getQuickInfoAtPosition gdr this c p = Some info ->
        ts.QuickInfo.kind info = ts.ScriptElementKind.string
        /\ ts.QuickInfo.kindModifiers info = lit ""
        /\ exists hover,
            info = translateHover hover p c (lit "html")
            /\ ts.QuickInfo.displayParts info
               = map unknownPart (headerValues (vscode.Hover.contents hover))).
Proof.
  intros tag.
  unfold tag, translateHoverCall, languageAt, getQuickInfoAtPosition.
  set (doc := createVirtualDocument c).
  set (lang := HTMLDocumentRegions.getLanguageAtPosition
                 (gdr (htmlLanguageService this) doc) p).
  destruct (str_eqb lang (lit "html")) eqn:Hh.
  - apply str_eqb_eq in Hh.
    destruct (HtmlLanguageService.doHover _ doc p _) as [hover|]; conjuncts.
    + intros E. rewrite E in Hh. discriminate Hh.
    + intros N. contradiction.
    + reflexivity.
    + intros call E. inversion E; subst call. simpl. auto.
    + intros info _ E. inversion E; subst info. rewrite Hh.
      destruct (translateHover_parts hover p c (lit "html")) as (D & _ & K & M).
      split; [exact K|]. split; [exact M|].
      exists hover. split; [reflexivity|].
      rewrite D. rewrite map_shownValue_other; [reflexivity | discriminate].
    + intros E. rewrite E in Hh. discriminate Hh.
    + intros N. contradiction.
    + reflexivity.
    + intros call E. discriminate E.
    + intros info _ E. discriminate E.
  - destruct (str_eqb lang (lit "css")) eqn:Hc; conjuncts.
    + reflexivity.
    + intros _ N. apply str_eqb_eq in Hc. contradiction.
    + intros N. apply str_eqb_eq in Hc. contradiction.
    + intros call E. discriminate E.
    + intros info N. apply str_eqb_eq in Hc. contradiction.
    + intros E. apply str_eqb_neq in Hc. contradiction.
    + reflexivity.
    + reflexivity.
    + intros call E. discriminate E.
    + intros info _ E. discriminate E.
Qed.

(** The statement at the example instance: line 0 belongs to [html], and
    the value of the hover is shown as the engine gave it. *)
Lemma C9_quick_info_witness :
  exists info,
    getQuickInfoAtPosition Example.regions Example.service
      (Example.context (lit "a.ts") Example.divText) (Example.at_ 0 1) = Some info
    /\ ts.QuickInfo.kind info = ts.ScriptElementKind.string
    /\ ts.QuickInfo.kindModifiers info = lit ""
    /\ ts.QuickInfo.displayParts info = [unknownPart (lit "<div>")].
Proof.
  eexists. split; [reflexivity|].
  destruct (proj2 (proj2 (proj2 (proj2
             (C9_quick_info_translates_html_only
                Example.regions Example.service
                (Example.context (lit "a.ts") Example.divText) (Example.at_ 0 1)))))
             _ ltac:(discriminate) eq_refl) as (K & M & _).
  split; [exact K|]. split; [exact M|]. reflexivity.
Defined.

(** ** C8: the line count of a virtual document *)

Lemma match_at_lineCount (c : N) (s : jsstring) :
  match_at re_lineCount (c :: s) = if (110 =? c)%N then Some 1%nat else None.
Proof.
  unfold match_at; simpl. destruct (110 =? c)%N; reflexivity.
Qed.

Lemma split_go_lineCount (s : jsstring) : forall cur,
  List.length (split_go re_lineCount O cur s) = S (countLetterN s).
Proof.
  unfold countLetterN.
  induction s as [|c s IH]; intros cur; [reflexivity|].
  cbn [split_go]. rewrite match_at_lineCount.
  cbn [count_occ].
  destruct (N.eq_dec c 110) as [E|E].
  - subst c. simpl. rewrite IH. reflexivity.
  - replace (110 =? c)%N with false
      by (symmetry; apply N.eqb_neq; congruence).
    apply IH.
Qed.

Lemma str_split_lineCount (s : jsstring) :
  List.length (str_split s re_lineCount) = S (countLetterN s).
Proof.
  destruct s as [|c s]; [reflexivity|].
  unfold str_split. apply split_go_lineCount.
Qed.

(** C8, what the code computes.  The line count of both virtual
    documents is the number of occurrences of the letter n in the text
    plus two: the text is split on the pattern [/n/g], a line feed
    pattern that lacks its backslash and so matches that letter, and one
    is added to the number of pieces.  Line feeds are not counted, and a
    text without the letter n has line count two. *)
Theorem C8_lineCount_counts_letter_n (context : TemplateContext.t) :
  vscode.TextDocument.lineCount (createVirtualDocument context)
  = Z.of_nat (countLetterN (TemplateContext.text context)) + 2
  /\ vscode.TextDocument.lineCount (createCssVirtualDocument context)
     = Z.of_nat (countLetterN (TemplateContext.text context)) + 2
  /\ (countLetterN (TemplateContext.text context) = O ->
      vscode.TextDocument.lineCount (createVirtualDocument context) = 2
      /\ vscode.TextDocument.lineCount (createCssVirtualDocument context) = 2).
Proof.
  assert (H : vscode.TextDocument.lineCount (createVirtualDocument context)
              = Z.of_nat (countLetterN (TemplateContext.text context)) + 2).
  { simpl. rewrite str_split_lineCount. lia. }
  assert (H' : vscode.TextDocument.lineCount (createCssVirtualDocument context)
               = Z.of_nat (countLetterN (TemplateContext.text context)) + 2).
  { simpl. rewrite str_split_lineCount. lia. }
  split; [exact H|]. split; [exact H'|].
  intros E. rewrite H, H', E. split; reflexivity.
Qed.

(** The statement at a fragment of three lines without the letter n. *)
Lemma C8_lineCount_witness :
  let context :=
    Example.context (lit "a.ts")
                    (lit "<p>" ++ [LF] ++ lit "Hello" ++ [LF] ++ lit "</p>") in
  countLetterN (TemplateContext.text context) = O
  /\ vscode.TextDocument.lineCount (createVirtualDocument context) = 2.
Proof.
  intros context. split; [reflexivity|].
  exact (proj1 (proj2 (proj2 (C8_lineCount_counts_letter_n context)) eq_refl)).
Defined.

(** Where the missing backslash shows: the fragment
    [<nav>banner</nav>] is one line, it has neither a backslash nor a
    line feed, and its line count is six, four letters n and two. *)
Lemma C8_lineCount_counterexample :
  countEscapeSequence (lit "<nav>banner</nav>") = O
  /\ vscode.TextDocument.lineCount
       (createVirtualDocument
          (Example.context (lit "a.ts") (lit "<nav>banner</nav>"))) = 6
  /\ ~ escapeSplitLineCount.
Proof.
  split; [reflexivity|]. split; [reflexivity|].
  intros H.
  specialize (H (Example.context (lit "a.ts") (lit "<nav>banner</nav>"))).
  vm_compute in H. discriminate H.
Qed.

(** ** C5: the cleanup of CSS hovers *)

Lemma fold_eqb_sound (ch x : N) :
  (ch < 65 \/ 90 < ch)%N ->
  fold_eqb ch x = true ->
  ((x =? ch) || (x =? ascii_upper ch))%N = true.
Proof.
  unfold fold_eqb, ascii_upper. intros Hch H.
  apply andb_true_iff in H. destruct H as [H _]. apply N.eqb_eq in H.
  apply orb_true_iff. rewrite !N.eqb_eq.
  destruct ((97 <=? x) && (x <=? 122))%N eqn:Ex;
    destruct ((97 <=? ch) && (ch <=? 122))%N eqn:Ec;
    try apply andb_true_iff in Ex; try apply andb_true_iff in Ec;
    repeat match goal with
           | H : _ /\ _ |- _ => destruct H
           | H : (_ <=? _)%N = true |- _ => apply N.leb_le in H
           end; lia.
Qed.

(** A match of a run of case-folded literals followed by [rest]. *)
Lemma match_here_literals at_end rest (pattern : jsstring) : forall s n,
  Forall (fun ch => (ch < 65 \/ 90 < ch)%N) pattern ->
  match_here at_end (map chr_i pattern ++ rest) s = Some n ->
  startsWithAnyCase pattern s = true
  /\ exists m, match_here at_end rest (skipn (List.length pattern) s) = Some m.
Proof.
  induction pattern as [|ch pattern IH]; intros s n Hp H.
  - simpl in *. split; [reflexivity|]. exists n. exact H.
  - inversion Hp as [|? ? Hch Hp']; subst.
    destruct s as [|x s]; [discriminate H|].
    cbn [map app match_here chr_i] in H.
    destruct (fold_eqb ch x) eqn:E; [|discriminate H].
    destruct (match_here at_end (map chr_i pattern ++ rest) s) as [k|] eqn:K;
      [|discriminate H].
    destruct (IH s k Hp' K) as [S1 S2].
    split; [|exact S2].
    cbn [startsWithAnyCase]. rewrite (fold_eqb_sound ch x Hch E), S1. reflexivity.
Qed.

Lemma match_at_styleDeclaration (s : jsstring) (n : nat) :
  match_at re_styleDeclaration s = Some n -> styleStartsHere s = true.
Proof.
  unfold match_at, re_styleDeclaration; cbn [anchored_end atoms].
  intros H. apply match_here_literals in H.
  - destruct H as [S1 [m S2]].
    unfold styleStartsHere. rewrite S1.
    change (List.length (lit "<style>")) with 7%nat in S2.
    destruct (skipn 7 s) as [|l [|w r]].
    + discriminate S2.
    + cbn [match_here chr_i] in S2.
      destruct (fold_eqb LF l); discriminate S2.
    + cbn [match_here chr_i] in S2.
      destruct (fold_eqb LF l) eqn:El; [|discriminate S2].
      destruct (is_space w); [|discriminate S2].
      pose proof (fold_eqb_sound LF l ltac:(left; reflexivity) El) as Hl.
      change (ascii_upper LF) with LF in Hl. rewrite orb_diag in Hl.
      rewrite Hl. reflexivity.
  - repeat constructor; right; reflexivity.
Qed.

(** Where the prefix does not occur, the replacement changes nothing. *)
Lemma replace_go_no_occurrence (value : jsstring) :
  styleOccurs value = false ->
  replace_go re_styleDeclaration (lit "") O value = value.
Proof.
  induction value as [|c value IH]; intros H.
  - cbn [replace_go]. destruct (match_at re_styleDeclaration []); reflexivity.
  - cbn [styleOccurs] in H. apply orb_false_iff in H. destruct H as [H1 H2].
    cbn [replace_go].
    destruct (match_at re_styleDeclaration (c :: value)) as [n|] eqn:M.
    + apply match_at_styleDeclaration in M. rewrite M in H1. discriminate H1.
    + rewrite (IH H2). reflexivity.
Qed.

Lemma objectHover_parts tag value range position context languageId :
  ts.QuickInfo.displayParts
    (translateHover (objectHover tag value range) position context languageId)
  = [unknownPart (shownValue languageId value)].
Proof.
  destruct (translateHover_parts (objectHover tag value range)
                                 position context languageId) as [D _].
  exact D.
Qed.

Lemma fold_eqb_complete (ch x : N) :
  (ch < 128)%N ->
  ((x =? ch) || (x =? ascii_upper ch))%N = true ->
  fold_eqb ch x = true.
Proof.
  unfold fold_eqb, ascii_upper. intros Hch H.
  apply orb_true_iff in H. rewrite !N.eqb_eq in H.
  apply andb_true_iff. rewrite N.eqb_eq, N.ltb_lt.
  destruct ((97 <=? ch) && (ch <=? 122))%N eqn:Ec;
    destruct ((97 <=? x) && (x <=? 122))%N eqn:Ex;
    try apply andb_true_iff in Ec; try apply andb_true_iff in Ex;
    try apply andb_false_iff in Ec; try apply andb_false_iff in Ex;
    repeat match goal with
           | H : _ /\ _ |- _ => destruct H
           | H : _ \/ _ |- _ => destruct H
           | H : (_ <=? _)%N = true |- _ => apply N.leb_le in H
           | H : (_ <=? _)%N = false |- _ => apply N.leb_gt in H
           end; lia.
Qed.

Lemma match_here_literals_complete at_end rest (pattern : jsstring) : forall s,
  Forall (fun ch => (ch < 128)%N) pattern ->
  startsWithAnyCase pattern s = true ->
  match_here at_end (map chr_i pattern ++ rest) s
  = option_map (Nat.add (List.length pattern))
               (match_here at_end rest (skipn (List.length pattern) s)).
Proof.
  induction pattern as [|ch pattern IH]; intros s Hp H.
  - simpl. destruct (match_here at_end rest s); reflexivity.
  - inversion Hp as [|? ? Hch Hp']; subst.
    destruct s as [|x s]; [discriminate H|].
    cbn [startsWithAnyCase] in H. apply andb_true_iff in H. destruct H as [H1 H2].
    cbn [map app match_here chr_i List.length skipn].
    rewrite (fold_eqb_complete ch x Hch H1), (IH s Hp' H2).
    destruct (match_here at_end rest (skipn (List.length pattern) s)); reflexivity.
Qed.

Lemma star_leadingSpaces (s : jsstring) :
  star is_space (match_here false []) s = Some (leadingSpaces s).
Proof.
  induction s as [|c s IH]; [reflexivity|].
  cbn [star leadingSpaces]. rewrite IH.
  destruct (is_space c); reflexivity.
Qed.

(** What [/(<style>\n)\s+/gi] matches at the head of a text. *)
Lemma match_at_styleDeclaration_eq (s : jsstring) :
  match_at re_styleDeclaration s
  = if styleStartsHere s then Some (8 + leadingSpaces (skipn 8 s))%nat else None.
Proof.
  destruct (styleStartsHere s) eqn:H.
  - unfold styleStartsHere in H. apply andb_true_iff in H. destruct H as [H1 H2].
    unfold match_at, re_styleDeclaration; cbn [anchored_end atoms].
    rewrite match_here_literals_complete;
      [|repeat constructor; reflexivity | exact H1].
    change (List.length (lit "<style>")) with 7%nat.
    replace (skipn 8 s) with (skipn 1 (skipn 7 s))
      by (rewrite skipn_skipn; reflexivity).
    destruct (skipn 7 s) as [|l [|w r]]; try discriminate H2.
    apply andb_true_iff in H2. destruct H2 as [Hl Hw].
    apply N.eqb_eq in Hl. subst l.
    cbn [match_here chr_i skipn].
    replace (fold_eqb LF LF) with true by reflexivity.
    rewrite Hw, star_leadingSpaces. cbn [leadingSpaces]. rewrite Hw.
    reflexivity.
  - destruct (match_at re_styleDeclaration s) as [n|] eqn:M; [|reflexivity].
    apply match_at_styleDeclaration in M. rewrite M in H. discriminate H.
Qed.

Lemma replace_go_skip r repl (a b : jsstring) :
  replace_go r repl (List.length a) (a ++ b) = replace_go r repl O b.
Proof.
  induction a as [|x a IH]; [reflexivity|].
  simpl. exact IH.
Qed.

Lemma startsWithAnyCase_app (pattern t rest : jsstring) :
  startsWithAnyCase pattern t = true ->
  startsWithAnyCase pattern (t ++ rest) = true.
Proof.
  revert t. induction pattern as [|ch pattern IH]; intros t H; [reflexivity|].
  destruct t as [|x t]; [discriminate H|].
  cbn [startsWithAnyCase app] in *.
  apply andb_true_iff in H. destruct H as [H1 H2].
  rewrite H1, (IH t H2). reflexivity.
Qed.

Lemma leadingSpaces_app (ws rest : jsstring) :
  forallb is_space ws = true ->
  leadingSpaces (ws ++ rest) = (List.length ws + leadingSpaces rest)%nat.
Proof.
  induction ws as [|w ws IH]; intros H; [reflexivity|].
  simpl in H. apply andb_true_iff in H. destruct H as [Hw Hs].
  cbn [app leadingSpaces List.length]. rewrite Hw, (IH Hs). reflexivity.
Qed.

(** *** An occurrence anywhere in the value

    The tag can only start a match: no later place of the pattern
    accepts its first character.  So a match that begins before an
    occurrence lies wholly before it. *)

(** A text starts with characters that the predicates accept, one
    each. *)
Fixpoint acceptsAll (ps : list (N -> bool)) (s : jsstring) : bool :=
  match ps with
  | [] => true
  | p :: ps' =>
      match s with
      | x :: s' => p x && acceptsAll ps' s'
      | [] => false
      end
  end.

Definition anyCase (ch x : N) : bool := ((x =? ch) || (x =? ascii_upper ch))%N.

Lemma acceptsAll_startsWith (pattern : jsstring) (rest : list (N -> bool)) :
  forall s,
    acceptsAll (map anyCase pattern ++ rest) s
    = startsWithAnyCase pattern s
      && acceptsAll rest (skipn (List.length pattern) s).
Proof.
  induction pattern as [|ch pattern IH]; intros s; [reflexivity|].
  destruct s as [|x s]; [reflexivity|].
  cbn [map app acceptsAll startsWithAnyCase List.length skipn].
  rewrite IH. unfold anyCase. rewrite andb_assoc. reflexivity.
Qed.

Lemma styleStartsHere_accepts (s : jsstring) :
  styleStartsHere s
  = acceptsAll (map anyCase (lit "<style>")
                ++ [fun l => (l =? LF)%N; is_space]) s.
Proof.
  rewrite acceptsAll_startsWith. unfold styleStartsHere.
  change (List.length (lit "<style>")) with 7%nat.
  destruct (skipn 7 s) as [|l [|w r]]; simpl;
    rewrite ?andb_true_r, ?andb_false_r; reflexivity.
Qed.

Lemma acceptsAll_before (x : N) (b : jsstring) (ps : list (N -> bool)) :
  forall a,
    Forall (fun p => p x = false) ps ->
    acceptsAll ps (a ++ x :: b) = true ->
    acceptsAll ps a = true.
Proof.
  induction ps as [|p ps IH]; intros a Hx H; [reflexivity|].
  inversion Hx as [|? ? Hp Hps]; subst.
  destruct a as [|y a]; simpl in H.
  - rewrite Hp in H. discriminate H.
  - apply andb_true_iff in H. destruct H as [H1 H2].
    simpl. rewrite H1, (IH a Hps H2). reflexivity.
Qed.

Lemma stylePattern_cons :
  map anyCase (lit "<style>") ++ [fun l => (l =? LF)%N; is_space]
  = anyCase 60%N
    :: (map anyCase (lit "style>") ++ [fun l => (l =? LF)%N; is_space]).
Proof. reflexivity. Qed.

(** A match cannot begin in a text and run into a tag that follows
    it. *)
Lemma styleStartsHere_before_tag (c : N) (a b : jsstring) :
  styleStartsHere (c :: a) = false ->
  styleStartsHere ((c :: a) ++ 60%N :: b) = false.
Proof.
  intros H. apply not_true_iff_false. intros T.
  apply not_true_iff_false in H. apply H.
  rewrite styleStartsHere_accepts, stylePattern_cons in *.
  change ((c :: a) ++ 60%N :: b) with (c :: (a ++ 60%N :: b)) in T.
  cbn [acceptsAll] in *.
  apply andb_true_iff in T. destruct T as [T1 T2].
  rewrite T1. cbn [andb].
  apply (acceptsAll_before 60%N b _ a); [|exact T2].
  repeat constructor.
Qed.

Lemma startsWithAnyCase_head (x : N) (t : jsstring) :
  startsWithAnyCase (lit "<style>") (x :: t) = true -> x = 60%N.
Proof.
  cbn [lit list_ascii_of_string map startsWithAnyCase].
  intros H. apply andb_true_iff in H. destruct H as [H _].
  apply orb_true_iff in H. destruct H as [H|H]; apply N.eqb_eq in H; exact H.
Qed.

(** The tag line at the head of a value and the whitespace after it are
    dropped, and the cleanup goes on behind them. *)
Lemma removeStyleDeclaration_tag_line (tag ws rest : jsstring) :
  List.length tag = 7%nat ->
  startsWithAnyCase (lit "<style>") tag = true ->
  ws <> [] ->
  forallb is_space ws = true ->
  leadingSpaces rest = O ->
  removeStyleDeclaration (tag ++ LF :: ws ++ rest) = removeStyleDeclaration rest.
Proof.
  intros Hlen Htag Hws Hsp Hrest.
  unfold removeStyleDeclaration, str_replace.
  assert (Hs : styleStartsHere (tag ++ LF :: ws ++ rest) = true).
  { unfold styleStartsHere.
    rewrite (startsWithAnyCase_app _ _ _ Htag).
    rewrite skipn_app, Hlen, Nat.sub_diag.
    rewrite skipn_all2 by lia. simpl.
    destruct ws as [|w ws]; [contradiction|].
    simpl in Hsp. apply andb_true_iff in Hsp. destruct Hsp as [Hw _].
    simpl. rewrite Hw. reflexivity. }
  assert (Hk : skipn 8 (tag ++ LF :: ws ++ rest) = ws ++ rest).
  { rewrite skipn_app, Hlen. rewrite skipn_all2 by lia. reflexivity. }
  destruct tag as [|c tag]; [discriminate Hlen|].
  cbn [app replace_go] in *.
  rewrite match_at_styleDeclaration_eq, Hs, Hk.
  rewrite (leadingSpaces_app _ _ Hsp), Hrest.
  change (lit "") with (@nil N).
  replace (8 + (List.length ws + 0))%nat
    with (S (List.length (tag ++ LF :: ws)))
    by (rewrite length_app; simpl in *; lia).
  cbv iota beta. cbn [app].
  replace (tag ++ LF :: ws ++ rest) with ((tag ++ LF :: ws) ++ rest)
    by (rewrite <- app_assoc; reflexivity).
  apply replace_go_skip.
Qed.

(** The same behind any text in which the tag does not occur: the text
    stays, the tag line and its whitespace go, wherever they stand. *)
Lemma removeStyleDeclaration_occurrence (pre tag ws rest : jsstring) :
  styleOccurs pre = false ->
  List.length tag = 7%nat ->
  startsWithAnyCase (lit "<style>") tag = true ->
  ws <> [] ->
  forallb is_space ws = true ->
  leadingSpaces rest = O ->
  removeStyleDeclaration (pre ++ tag ++ LF :: ws ++ rest)
  = pre ++ removeStyleDeclaration rest.
Proof.
  intros Hpre Hlen Htag Hws Hsp Hrest.
  induction pre as [|c pre IH].
  - apply removeStyleDeclaration_tag_line; assumption.
  - cbn [styleOccurs] in Hpre. apply orb_false_iff in Hpre.
    destruct Hpre as [H1 H2].
    destruct tag as [|x tag']; [discriminate Hlen|].
    pose proof (startsWithAnyCase_head x tag' Htag) as Hx. subst x.
    pose proof (styleStartsHere_before_tag c pre
                  (tag' ++ LF :: ws ++ rest) H1) as Hn.
    unfold removeStyleDeclaration, str_replace in *.
    change ((c :: pre) ++ (60%N :: tag') ++ LF :: ws ++ rest)
      with (c :: (pre ++ (60%N :: tag') ++ LF :: ws ++ rest)).
    change ((c :: pre) ++ 60%N :: tag' ++ LF :: ws ++ rest)
      with (c :: (pre ++ (60%N :: tag') ++ LF :: ws ++ rest)) in Hn.
    cbn [replace_go].
    rewrite match_at_styleDeclaration_eq, Hn.
    rewrite (IH H2). reflexivity.
Qed.

(** C5, as the code has it.  The cleanup is applied to the value of an
    object of the hover exactly when the language tag is [css].  Under
    [css] the value of the specification's example is shown as
    [color: red;], and a value in which the style tag followed by a line
    feed and a whitespace character occurs nowhere is shown unchanged.
    An occurrence is removed wherever it stands: behind any text without
    an occurrence, the tag in any letter case, the line feed and all the
    whitespace after them are dropped, the text before them stays, and
    the rest of the value is cleaned in the same way.  Under any other
    tag, [html] among them, every value is shown as the engine gave it,
    the example value too.  Plain strings of the hover go to the
    documentation unchanged under every tag. *)
Theorem C5_css_hover_cleanup :
  (forall tag range position context,
      ts.QuickInfo.displayParts
        (translateHover (objectHover tag Example.styleValue range)
                        position context (lit "css"))
      = [unknownPart (lit "color: red;")])
  /\ (forall tag value range position context,
        styleOccurs value = false ->
        ts.QuickInfo.displayParts
          (translateHover (objectHover tag value range) position context (lit "css"))
        = [unknownPart value])
  /\ (forall languageId tag value range position context,
        languageId <> lit "css" ->
        ts.QuickInfo.displayParts
          (translateHover (objectHover tag value range) position context languageId)
        = [unknownPart value])
  /\ (forall tag range position context,
        ts.QuickInfo.displayParts
          (translateHover (objectHover tag Example.styleValue range)
                          position context (lit "html"))
        = [unknownPart Example.styleValue])
  /\ (forall languageId hover position context,
        ts.QuickInfo.displayParts
          (translateHover hover position context languageId)
        = map unknownPart
              (map (fun value =>
                      if str_eqb languageId (lit "css")
                      then removeStyleDeclaration value else value)
                   (headerValues (vscode.Hover.contents hover)))
        /\ ts.QuickInfo.documentation
             (translateHover hover position context languageId)
           = map unknownPart (docStrings (vscode.Hover.contents hover)))
  /\ (forall tag pre t ws rest range position context,
        styleOccurs pre = false ->
        List.length t = 7%nat ->
        startsWithAnyCase (lit "<style>") t = true ->
        ws <> [] ->
        forallb is_space ws = true ->
        leadingSpaces rest = O ->
        ts.QuickInfo.displayParts
          (translateHover (objectHover tag (pre ++ t ++ LF :: ws ++ rest) range)
                          position context (lit "css"))
        = [unknownPart (pre ++ removeStyleDeclaration rest)]
        /\ (styleOccurs rest = false ->
            ts.QuickInfo.displayParts
              (translateHover (objectHover tag (pre ++ t ++ LF :: ws ++ rest) range)
                              position context (lit "css"))
            = [unknownPart (pre ++ rest)])).
Proof.
  split; [|split; [|split; [|split; [|split]]]].
  - intros. rewrite objectHover_parts. reflexivity.
  - intros tag value range position context H.
    rewrite objectHover_parts.
    unfold shownValue, removeStyleDeclaration, str_replace.
    rewrite str_eqb_refl, (replace_go_no_occurrence value H). reflexivity.
  - intros languageId tag value range position context H.
    rewrite objectHover_parts, shownValue_other by exact H. reflexivity.
  - intros. rewrite objectHover_parts. reflexivity.
  - intros languageId hover position context.
    destruct (translateHover_parts hover position context languageId)
      as (D & E & _).
    split; [exact D | exact E].
  - intros tag pre t ws rest range position context Hpre Hlen Ht Hws Hsp Hrest.
    rewrite objectHover_parts. unfold shownValue. rewrite str_eqb_refl.
    rewrite (removeStyleDeclaration_occurrence pre t ws rest
               Hpre Hlen Ht Hws Hsp Hrest).
    split; [reflexivity|].
    intros Hno. unfold removeStyleDeclaration, str_replace.
    rewrite (replace_go_no_occurrence rest Hno). reflexivity.
Qed.

(** The statement at a CSS hover value without the tag. *)
Lemma C5_css_hover_witness :
  styleOccurs (lit "color: blue;") = false
  /\ ts.QuickInfo.displayParts
       (translateHover (objectHover (lit "css") (lit "color: blue;") None)
                       (Example.at_ 1 2)
                       (Example.context (lit "a.ts") Example.divText) (lit "css"))
     = [unknownPart (lit "color: blue;")].
Proof.
  split; [reflexivity|].
  apply (proj1 (proj2 C5_css_hover_cleanup)). reflexivity.
Defined.

(** C5, as the specification words it, fails: the value
    [a<style>], line feed, space, [b] does not start with the prefix,
    and yet the tag and the whitespace after it are removed. *)
Lemma C5_css_hover_counterexample :
  styleStartsHere Example.innerStyleValue = false
  /\ ts.QuickInfo.displayParts
       (translateHover (objectHover (lit "css") Example.innerStyleValue None)
                       (Example.at_ 1 2)
                       (Example.context (lit "a.ts") Example.divText) (lit "css"))
     = [unknownPart (lit "ab")]
  /\ ~ prefixOnlyCleanup.
Proof.
  split; [reflexivity|]. split; [reflexivity|].
  intros H.
  specialize (H (lit "css") Example.innerStyleValue None (Example.at_ 1 2)
                (Example.context (lit "a.ts") Example.divText) eq_refl).
  vm_compute in H. discriminate H.
Qed.

(** ** C4: the range that is formatted *)

Lemma is_space_LF : is_space LF = true.
Proof. reflexivity. Qed.

Lemma blankPrefix_nil text : blankPrefix text [].
Proof.
  split; [exists text; reflexivity|]. split; [reflexivity | left; reflexivity].
Qed.

Create HintDb blank.
#[local] Hint Resolve blankPrefix_nil : blank.

Lemma blankPrefix_cons c s x q :
  blankPrefix (c :: s) (x :: q) ->
  x = c /\ is_space c = true /\
  ((q = [] /\ c = LF) \/ (q <> [] /\ blankPrefix s q)).
Proof.
  intros ([rest E] & F & L). simpl in E. inversion E; subst x.
  simpl in F. apply andb_true_iff in F. destruct F as [Fc Fq].
  split; [reflexivity|]. split; [exact Fc|].
  destruct L as [L|L]; [discriminate L|].
  destruct q as [|y q].
  - left. split; [reflexivity | exact L].
  - right. split; [discriminate|].
    split; [exists rest; reflexivity|]. split; [exact Fq|].
    right. exact L.
Qed.

(** The match of [/^\s*\n/] at the head of a text is its longest blank
    prefix. *)
Lemma leading_match_spec (s : jsstring) :
  match match_at re_leading s with
  | Some n =>
      (1 <= n <= List.length s)%nat
      /\ blankPrefix s (firstn n s)
      /\ forall pre', blankPrefix s pre' -> (List.length pre' <= n)%nat
  | None => forall pre', blankPrefix s pre' -> pre' = []
  end.
Proof.
  unfold match_at, re_leading; cbn [anchored_end atoms].
  change (match_here false [Star is_space; chr LF])
    with (star is_space (match_here false [chr LF])).
  assert (K : forall c t, match_here false [chr LF] (c :: t)
                          = if (LF =? c)%N then Some 1%nat else None).
  { intros c t. simpl. destruct (LF =? c)%N; reflexivity. }
  set (k := match_here false [chr LF]) in *.
  induction s as [|c s IH].
  - simpl. intros pre' ([rest E] & _).
    destruct pre'; [reflexivity | discriminate E].
  - cbn [star]. rewrite K.
    destruct (is_space c) eqn:Sc.
    + destruct (star is_space k s) as [n|].
      * destruct IH as ((N1 & N2) & (_ & F & L) & M).
        split; [simpl; lia|]. split.
        -- split; [exists (skipn (S n) (c :: s)); symmetry; apply firstn_skipn|].
           split; [simpl; rewrite Sc; exact F|].
           right. destruct L as [L|L].
           ++ apply (f_equal (@List.length N)) in L.
              rewrite length_firstn in L. simpl in L. lia.
           ++ cbn [firstn]. destruct (firstn n s) as [|y q] eqn:Q.
              ** apply (f_equal (@List.length N)) in Q.
                 rewrite length_firstn in Q. simpl in Q. lia.
              ** exact L.
        -- intros [|x q] B; [simpl; lia|].
           apply blankPrefix_cons in B.
           destruct B as (_ & _ & [[-> _]|[_ B]]); [simpl; lia|].
           specialize (M q B). simpl. lia.
      * destruct (LF =? c)%N eqn:Ec.
        -- apply N.eqb_eq in Ec. subst c. simpl.
           split; [lia|]. split.
           ++ split; [exists s; reflexivity|].
              split; [reflexivity | right; reflexivity].
           ++ intros [|x q] B; [simpl; lia|].
              apply blankPrefix_cons in B.
              destruct B as (_ & _ & [[-> _]|[Q B]]); [simpl; lia|].
              elim Q. apply IH, B.
        -- intros [|x q] B; [reflexivity|].
           apply blankPrefix_cons in B.
           destruct B as (_ & _ & [[_ E]|[Q B]]).
           ++ subst c. rewrite N.eqb_refl in Ec. discriminate Ec.
           ++ elim Q. apply IH, B.
    + destruct (LF =? c)%N eqn:Ec.
      * apply N.eqb_eq in Ec. subst c. rewrite is_space_LF in Sc. discriminate Sc.
      * intros [|x q] B; [reflexivity|].
        apply blankPrefix_cons in B. destruct B as (_ & Sc' & _).
        rewrite Sc' in Sc. discriminate Sc.
Qed.

Lemma leading_longest (text : jsstring) :
  match str_match text re_leading with
  | Some leading => longestBlankPrefix text leading
  | None => longestBlankPrefix text []
  end.
Proof.
  unfold str_match; cbn [anchored_start re_leading].
  change (mkRegex true [Star is_space; chr LF] false) with re_leading.
  pose proof (leading_match_spec text) as H.
  destruct (match_at re_leading text) as [n|].
  - destruct H as ((N1 & N2) & B & M).
    split; [exact B|]. intros pre' B'.
    rewrite length_firstn. specialize (M pre' B'). lia.
  - split; [auto with blank|].
    intros pre' B'. rewrite (H pre' B'). simpl. lia.
Qed.

(** [\s*$] matches a whole text of whitespace, and nothing else. *)
Lemma star_to_end (t : jsstring) :
  star is_space (match_here true []) t
  = if forallb is_space t then Some (List.length t) else None.
Proof.
  induction t as [|c t IH]; [reflexivity|].
  cbn [star forallb]. rewrite IH.
  destruct (is_space c); simpl; [|reflexivity].
  destruct (forallb is_space t); reflexivity.
Qed.

Lemma trailing_match_at (c : N) (t : jsstring) :
  match_at re_trailing (c :: t)
  = if (LF =? c)%N && forallb is_space t then Some (S (List.length t)) else None.
Proof.
  unfold match_at, re_trailing; cbn [anchored_end atoms match_here chr].
  rewrite star_to_end.
  destruct (LF =? c)%N; simpl; [|reflexivity].
  destruct (forallb is_space t); reflexivity.
Qed.

Lemma blankSuffix_nil text : blankSuffix text [].
Proof.
  split; [exists text; symmetry; apply app_nil_r|].
  split; [reflexivity | left; reflexivity].
Qed.

#[local] Hint Resolve blankSuffix_nil : blank.

Lemma blankSuffix_length text suf :
  blankSuffix text suf -> (List.length suf <= List.length text)%nat.
Proof.
  intros ([before E] & _). subst text. rewrite length_app. lia.
Qed.

Lemma blankSuffix_cons c s suf :
  blankSuffix (c :: s) suf ->
  (suf = c :: s /\ c = LF /\ forallb is_space s = true) \/ blankSuffix s suf.
Proof.
  intros ([before E] & F & L).
  destruct before as [|b before]; simpl in E.
  - left. subst suf. simpl in F. apply andb_true_iff in F.
    destruct L as [L|L]; [discriminate L|]. simpl in L. tauto.
  - right. inversion E; subst.
    split; [exists before; reflexivity|]. tauto.
Qed.

Lemma blankSuffix_weaken c s suf : blankSuffix s suf -> blankSuffix (c :: s) suf.
Proof.
  intros ([before E] & F & L). subst s.
  split; [exists (c :: before); reflexivity|]. tauto.
Qed.

(** The first match of [/\n\s*$/] in a text is its longest blank
    suffix. *)
Lemma trailing_search_spec (s : jsstring) :
  match search_from re_trailing s with
  | Some (i, n) =>
      n = List.length (skipn i s)
      /\ blankSuffix s (skipn i s)
      /\ forall suf, blankSuffix s suf -> (List.length suf <= n)%nat
  | None => forall suf, blankSuffix s suf -> suf = []
  end.
Proof.
  induction s as [|c s IH].
  - simpl. intros suf ([before E] & _).
    destruct before; destruct suf; simpl in E; try discriminate E; reflexivity.
  - cbn [search_from]. rewrite trailing_match_at.
    destruct ((LF =? c)%N && forallb is_space s) eqn:W.
    + apply andb_true_iff in W. destruct W as [Wc Ws].
      apply N.eqb_eq in Wc. subst c.
      cbn [skipn]. split; [reflexivity|]. split.
      * split; [exists []; reflexivity|].
        split; [simpl; exact Ws | right; reflexivity].
      * intros suf B. apply blankSuffix_length in B. exact B.
    + assert (Hwhole : forall suf, blankSuffix (c :: s) suf -> blankSuffix s suf).
      { intros suf B. apply blankSuffix_cons in B.
        destruct B as [(_ & -> & Ws)|B]; [|exact B].
        rewrite N.eqb_refl, Ws in W. discriminate W. }
      destruct (search_from re_trailing s) as [[i n]|].
      * destruct IH as (N1 & B & M). cbn [skipn].
        split; [exact N1|]. split; [apply blankSuffix_weaken, B|].
        intros suf B'. apply M, Hwhole, B'.
      * intros suf B'. apply IH, Hwhole, B'.
Qed.

Lemma trailing_longest (text : jsstring) :
  match str_match text re_trailing with
  | Some trailing => longestBlankSuffix text trailing
  | None => longestBlankSuffix text []
  end.
Proof.
  unfold str_match; cbn [anchored_start re_trailing].
  change (mkRegex false [chr LF; Star is_space] true) with re_trailing.
  pose proof (trailing_search_spec text) as H.
  destruct (search_from re_trailing text) as [[i n]|].
  - destruct H as (N1 & B & M).
    rewrite N1, firstn_all.
    split; [exact B|]. intros suf B'. rewrite <- N1. apply M, B'.
  - split; [auto with blank|].
    intros suf B'. rewrite (H suf B'). simpl. lia.
Qed.




(** * Further properties of the code *)

(** ** The order of positions and the overlap of ranges *)

Lemma isAfter_spec (left right : vscode.Position.t) :
  isAfter left right = true <-> atOrBefore left right.
Proof.
  unfold isAfter, atOrBefore.
  rewrite orb_true_iff, andb_true_iff, Z.gtb_lt, Z.eqb_eq, Z.geb_le.
  intuition lia.
Qed.

Lemma isAfter_false (left right : vscode.Position.t) :
  isAfter left right = false <-> strictlyBefore right left.
Proof.
  rewrite <- not_true_iff_false, isAfter_spec.
  unfold atOrBefore, strictlyBefore. lia.
Qed.

(** X1.  [isAfter left right] tells that [right] is at or after [left]
    in the order by line, then column.  It is a total order on
    positions: reflexive, transitive, any two positions are comparable,
    and two positions that are each at or after the other are the same
    position, which is what [arePositionsEqual] tests. *)
Theorem X1_isAfter_total_order :
  (forall left right, isAfter left right = true <-> atOrBefore left right)
  /\ (forall p, isAfter p p = true)
  /\ (forall p q, isAfter p q = true \/ isAfter q p = true)
  /\ (forall p q r, isAfter p q = true -> isAfter q r = true -> isAfter p r = true)
  /\ (forall p q, isAfter p q = true -> isAfter q p = true -> p = q)
  /\ (forall p q, arePositionsEqual p q = isAfter p q && isAfter q p).
Proof.
  conjuncts.
  - apply isAfter_spec.
  - intros p. apply isAfter_spec. unfold atOrBefore. lia.
  - intros p q. rewrite !isAfter_spec. unfold atOrBefore. lia.
  - intros p q r. rewrite !isAfter_spec. unfold atOrBefore. lia.
  - intros p q. rewrite !isAfter_spec. unfold atOrBefore. intros H1 H2.
    apply position_ext; lia.
  - intros p q.
    destruct (arePositionsEqual p q) eqn:E.
    + apply arePositionsEqual_eq in E. symmetry. apply andb_true_iff.
      rewrite !isAfter_spec. unfold atOrBefore. lia.
    + symmetry. apply not_true_iff_false. intros H.
      apply andb_true_iff in H. rewrite !isAfter_spec in H.
      apply not_true_iff_false in E. apply E. apply arePositionsEqual_eq.
      unfold atOrBefore in H. lia.
Qed.

(** X2.  Two ranges overlap exactly when each starts strictly before the
    other ends.  The test is symmetric; ranges that only touch, the end
    of one being the start of the other, do not overlap; and a range
    overlaps itself exactly when it is not empty or inverted. *)
Theorem X2_overlaps_strict_intersection :
  (forall a b,
      overlaps a b = true <->
      strictlyBefore (vscode.Range.start b) (vscode.Range.end_ a)
      /\ strictlyBefore (vscode.Range.start a) (vscode.Range.end_ b))
  /\ (forall a b, overlaps a b = overlaps b a)
  /\ (forall a b, vscode.Range.end_ a = vscode.Range.start b -> overlaps a b = false)
  /\ (forall a,
        overlaps a a = true <->
        strictlyBefore (vscode.Range.start a) (vscode.Range.end_ a)).
Proof.
  assert (S : forall a b,
             overlaps a b = true <->
             strictlyBefore (vscode.Range.start b) (vscode.Range.end_ a)
             /\ strictlyBefore (vscode.Range.start a) (vscode.Range.end_ b)).
  { intros a b. unfold overlaps.
    rewrite andb_true_iff, !negb_true_iff, !isAfter_false. reflexivity. }
  split; [exact S|]. split; [|split].
  - intros a b. unfold overlaps. apply andb_comm.
  - intros a b E. apply not_true_iff_false. rewrite S, E.
    unfold strictlyBefore. lia.
  - intros a. rewrite S. tauto.
Qed.

(** ** Diagnostic severities *)

(** X3.  [translateSeverity] sends [Information] and [Hint] to [Message],
    [Warning] to [Warning], and everything else to [Error]: the severity
    [Error], an undefined severity and any number outside the
    enumeration.  It never yields [Suggestion]. *)
Theorem X3_translateSeverity_table (severity : option Z) :
  (translateSeverity severity = ts.DiagnosticCategory.Message
   <-> severity = Some vscode.DiagnosticSeverity.Information
       \/ severity = Some vscode.DiagnosticSeverity.Hint_)
  /\ (translateSeverity severity = ts.DiagnosticCategory.Warning
      <-> severity = Some vscode.DiagnosticSeverity.Warning)
  /\ (translateSeverity severity = ts.DiagnosticCategory.Error
      <-> severity <> Some vscode.DiagnosticSeverity.Information
          /\ severity <> Some vscode.DiagnosticSeverity.Hint_
          /\ severity <> Some vscode.DiagnosticSeverity.Warning)
  /\ translateSeverity severity <> ts.DiagnosticCategory.Suggestion.
Proof.
  unfold translateSeverity, vscode.DiagnosticSeverity.Information,
    vscode.DiagnosticSeverity.Hint_, vscode.DiagnosticSeverity.Warning.
  destruct severity as [s|].
  - destruct (Z.eqb_spec s 3) as [E3|E3]; simpl.
    + subst s. conjuncts; intros; try discriminate; auto;
        intuition congruence.
    + destruct (Z.eqb_spec s 4) as [E4|E4]; simpl.
      * subst s. conjuncts; intros; try discriminate; auto;
          intuition congruence.
      * destruct (Z.eqb_spec s 2) as [E2|E2].
        -- subst s. conjuncts; intros; try discriminate; auto;
             intuition congruence.
        -- conjuncts; intros; try discriminate; auto;
             intuition congruence.
  - conjuncts; intros; try discriminate; auto; intuition congruence.
Qed.

(** ** Round trips through the coordinates of the fragment *)

Lemma position_eta (p : vscode.Position.t) :
  {| vscode.Position.line := vscode.Position.line p;
     vscode.Position.character := vscode.Position.character p |} = p.
Proof. destruct p; reflexivity. Qed.

Lemma orZero_Some (n : Z) : orZero (Some n) = n.
Proof.
  unfold orZero. destruct (Z.eqb_spec n 0) as [E|E]; [symmetry; exact E | reflexivity].
Qed.

(** X4.  When the converters of the context bring the offsets [a] and
    [b] back from their positions, a range made from the two offsets by
    [toVsRange] is translated back to the span from [a] of length
    [b - a]: by [toTsSpan], by [translateTextEditToFileTextChange] for
    an edit of that range, which is addressed to the file of the context
    and keeps its new text, and by [translateHover] for a hover of that
    range. *)
Theorem X4_range_span_round_trip
        (context : TemplateContext.t) (a b : Z) :
  TemplateContext.toOffset context (TemplateContext.toPosition context a) = a ->
  TemplateContext.toOffset context (TemplateContext.toPosition context b) = b ->
  toTsSpan context (toVsRange context a b) = spanBetween (a, b)
  /\ (forall newText,
        translateTextEditToFileTextChange context
          {| vscode.TextEdit.range := toVsRange context a b;
             vscode.TextEdit.newText := newText |}
        = {| ts.FileTextChanges.fileName := TemplateContext.fileName context;
             ts.FileTextChanges.textChanges :=
               [ {| ts.TextChange.span := spanBetween (a, b);
                    ts.TextChange.newText := newText |} ] |})
  /\ (forall contents position languageId,
        ts.QuickInfo.textSpan
          (translateHover
             {| vscode.Hover.contents := contents;
                vscode.Hover.range := Some (toVsRange context a b) |}
             position context languageId)
        = spanBetween (a, b)).
Proof.
  intros Ha Hb. conjuncts.
  - unfold toTsSpan, toVsRange, spanBetween; simpl. rewrite Ha, Hb. reflexivity.
  - intros newText.
    unfold translateTextEditToFileTextChange, toVsRange, spanBetween; simpl.
    rewrite Ha, Hb. reflexivity.
  - intros contents position languageId.
    unfold translateHover, toVsRange, spanBetween; simpl.
    destruct (convertPart languageId contents ([], [])) as [header docs]; simpl.
    rewrite Ha, Hb. reflexivity.
Qed.

(** The statement for the padded fragment of the example and the
    offsets 1 and 14. *)
Lemma X4_range_span_witness :
  toTsSpan (Example.context (lit "a.ts") Example.paddedText)
           (toVsRange (Example.context (lit "a.ts") Example.paddedText) 1 14)
  = {| ts.TextSpan.start := 1; ts.TextSpan.length := 13 |}.
Proof.
  exact (proj1 (X4_range_span_round_trip
                  (Example.context (lit "a.ts") Example.paddedText) 1 14
                  eq_refl eq_refl)).
Defined.

(** ** Outlining spans *)

Lemma translateOutliningSpan_between (context : TemplateContext.t) (offsets : Z * Z) :
  TemplateContext.toOffset context
    (TemplateContext.toPosition context (fst offsets)) = fst offsets ->
  TemplateContext.toOffset context
    (TemplateContext.toPosition context (snd offsets)) = snd offsets ->
  translateOutliningSpan context (foldingBetween context offsets)
  = {| ts.OutliningSpan.autoCollapse := false;
       ts.OutliningSpan.kind := ts.OutliningSpanKind.Code;
       ts.OutliningSpan.bannerText := lit "";
       ts.OutliningSpan.textSpan := spanBetween offsets;
       ts.OutliningSpan.hintSpan := spanBetween offsets |}.
Proof.
  intros Ha Hb.
  unfold translateOutliningSpan, foldingBetween, spanBetween; cbn -[orZero].
  rewrite !orZero_Some, !position_eta, Ha, Hb. reflexivity.
Qed.

Lemma orZero_column (x : option Z) :
  orZero x = match x with Some n => n | None => 0 end.
Proof. destruct x as [n|]; [apply orZero_Some | reflexivity]. Qed.

Lemma translateOutliningSpan_span (context : TemplateContext.t)
      (range : vscode.FoldingRange.t) :
  translateOutliningSpan context range
  = {| ts.OutliningSpan.autoCollapse := false;
       ts.OutliningSpan.kind := ts.OutliningSpanKind.Code;
       ts.OutliningSpan.bannerText := lit "";
       ts.OutliningSpan.textSpan := foldingSpan context range;
       ts.OutliningSpan.hintSpan := foldingSpan context range |}.
Proof.
  unfold translateOutliningSpan, foldingSpan.
  rewrite !orZero_column. reflexivity.
Qed.

(** X5.  [getOutliningSpans] answers with one span per folding range of
    the engine, in the order of the engine, whatever the ranges are: the
    span at each place is made from the range at that place, with or
    without columns, it runs from the offset of the start position to
    the offset of the end position, a missing column counting as 0, it
    is its own hint span, is never collapsed and has no banner.  When
    the engine reports the ranges between the positions of the offset
    pairs [offsets], and the converters of the context bring these
    offsets back from their positions, the spans are those between the
    offsets.  A folding range without a column is read as one with
    column 0. *)
Theorem X5_outlining_spans_round_trip
        (getFoldingRanges : vscode.TextDocument.t -> list vscode.FoldingRange.t)
        (context : TemplateContext.t) :
  let ranges := getFoldingRanges (createVirtualDocument context) in
  let spans := getOutliningSpans getFoldingRanges context in
  List.length spans = List.length ranges
  /\ (forall (i : nat) (range : vscode.FoldingRange.t),
        nth_error ranges i = Some range ->
        nth_error spans i
        = Some {| ts.OutliningSpan.autoCollapse := false;
                  ts.OutliningSpan.kind := ts.OutliningSpanKind.Code;
                  ts.OutliningSpan.bannerText := lit "";
                  ts.OutliningSpan.textSpan := foldingSpan context range;
                  ts.OutliningSpan.hintSpan := foldingSpan context range |})
  /\ (forall offsets : list (Z * Z),
        (forall x, In x offsets ->
           TemplateContext.toOffset context
             (TemplateContext.toPosition context (fst x)) = fst x
           /\ TemplateContext.toOffset context
                (TemplateContext.toPosition context (snd x)) = snd x) ->
        ranges = map (foldingBetween context) offsets ->
        map ts.OutliningSpan.textSpan spans = map spanBetween offsets
        /\ map ts.OutliningSpan.hintSpan spans = map spanBetween offsets)
  /\ (forall startLine endLine,
        translateOutliningSpan context
          (vscode.FoldingRange.mk startLine None endLine None)
        = translateOutliningSpan context
            (vscode.FoldingRange.mk startLine (Some 0) endLine (Some 0))).
Proof.
  intros ranges spans. unfold spans, getOutliningSpans. fold ranges.
  split; [apply length_map|]. split; [|split].
  - intros i range H.
    rewrite nth_error_map, H. simpl.
    rewrite translateOutliningSpan_span. reflexivity.
  - intros offsets Hinv Hranges. rewrite Hranges, !map_map.
    split; apply map_ext_in; intros x Hx; destruct (Hinv x Hx) as [Ha Hb];
      rewrite translateOutliningSpan_between by assumption; reflexivity.
  - reflexivity.
Qed.

(** The statement for the padded fragment of the example, with a folding
    range around the element and a folding range of whole lines, which
    has no columns. *)
Lemma X5_outlining_spans_witness :
  let context := Example.context (lit "a.ts") Example.paddedText in
  let engine :=
    fun _ : vscode.TextDocument.t =>
      [foldingBetween context (3, 14); vscode.FoldingRange.mk 1 None 2 None] in
  map ts.OutliningSpan.textSpan (getOutliningSpans engine context)
  = [ {| ts.TextSpan.start := 3; ts.TextSpan.length := 11 |};
      {| ts.TextSpan.start := 1; ts.TextSpan.length := 14 |} ]
  /\ nth_error (getOutliningSpans engine context) 1
     = Some {| ts.OutliningSpan.autoCollapse := false;
               ts.OutliningSpan.kind := ts.OutliningSpanKind.Code;
               ts.OutliningSpan.bannerText := lit "";
               ts.OutliningSpan.textSpan :=
                 {| ts.TextSpan.start := 1; ts.TextSpan.length := 14 |};
               ts.OutliningSpan.hintSpan :=
                 {| ts.TextSpan.start := 1; ts.TextSpan.length := 14 |} |}.
Proof.
  intros context engine.
  split; [reflexivity|].
  exact (proj1 (proj2 (X5_outlining_spans_round_trip engine context))
               1%nat (vscode.FoldingRange.mk 1 None 2 None) eq_refl).
Defined.

(** ** Formatting: fragments without line feeds and blank fragments *)

Lemma last_in (l : jsstring) (d : N) : l <> [] -> In (last l d) l.
Proof.
  induction l as [|x l IH]; intros H; [contradiction|].
  destruct l as [|y l]; [left; reflexivity|].
  right. apply IH. discriminate.
Qed.

Lemma blankPrefix_no_LF text pre :
  ~ In LF text -> blankPrefix text pre -> pre = [].
Proof.
  intros Hn ([rest E] & _ & [L|L]); [exact L|].
  destruct pre as [|x pre]; [reflexivity|].
  exfalso. apply Hn. subst text. apply in_or_app. left.
  rewrite <- L. apply last_in. discriminate.
Qed.

Lemma blankSuffix_no_LF text suf :
  ~ In LF text -> blankSuffix text suf -> suf = [].
Proof.
  intros Hn ([before E] & _ & [L|L]); [exact L|].
  destruct suf as [|x suf]; [reflexivity|].
  exfalso. apply Hn. subst text. apply in_or_app. right.
  simpl in L. subst x. left; reflexivity.
Qed.

(** The lengths that [getFormattingEditsForRange] takes off the two ends
    of the range. *)
Lemma formatting_shrink_lengths
      {HTMLDocument Stylesheet : Type}
      (this : @HtmlTemplateLanguageService HTMLDocument Stylesheet)
      (context : TemplateContext.t) (start end_ : Z)
      (settings : ts.EditorSettings.t) :
  exists leading trailing : jsstring,
    longestBlankPrefix (TemplateContext.text context) leading
    /\ longestBlankSuffix (TemplateContext.text context) trailing
    /\ getFormattingEditsForRange this context start end_ settings
       = if negb (TsHtmlPluginConfiguration.enabled
                    (TsHtmlPluginConfiguration.format (configuration this)))
         then []
         else if end_ - strlen trailing <=? start + strlen leading then []
         else formatRange this context (start + strlen leading)
                          (end_ - strlen trailing) settings.
Proof.
  pose proof (leading_longest (TemplateContext.text context)) as L.
  pose proof (trailing_longest (TemplateContext.text context)) as T.
  unfold getFormattingEditsForRange, formatRange.
  destruct (str_match (TemplateContext.text context) re_leading) as [leading|];
    destruct (str_match (TemplateContext.text context) re_trailing) as [trailing|].
  - exists leading, trailing. auto.
  - exists leading, []. split; [exact L|]. split; [exact T|].
    change (strlen []) with 0. rewrite Z.sub_0_r. reflexivity.
  - exists [], trailing. split; [exact L|]. split; [exact T|].
    change (strlen []) with 0. rewrite Z.add_0_r. reflexivity.
  - exists [], []. split; [exact L|]. split; [exact T|].
    change (strlen []) with 0. rewrite Z.add_0_r, Z.sub_0_r. reflexivity.
Qed.

(** X6.  For a fragment without any line feed the requested range is
    formatted as it is: nothing is taken off its ends, whatever
    whitespace the text starts or ends with. *)
Theorem X6_formatting_one_line_fragment
        {HTMLDocument Stylesheet : Type}
        (this : @HtmlTemplateLanguageService HTMLDocument Stylesheet)
        (context : TemplateContext.t) (start end_ : Z)
        (settings : ts.EditorSettings.t) :
  ~ In LF (TemplateContext.text context) ->
  getFormattingEditsForRange this context start end_ settings
  = if negb (TsHtmlPluginConfiguration.enabled
               (TsHtmlPluginConfiguration.format (configuration this)))
    then []
    else if end_ <=? start then []
    else formatRange this context start end_ settings.
Proof.
  intros Hn.
  destruct (formatting_shrink_lengths this context start end_ settings)
    as (leading & trailing & [BL _] & [BT _] & E).
  rewrite (blankPrefix_no_LF _ _ Hn BL), (blankSuffix_no_LF _ _ Hn BT) in E.
  change (strlen []) with 0 in E. rewrite Z.add_0_r, Z.sub_0_r in E. exact E.
Qed.

(** The statement for a fragment of one line with spaces at both ends. *)
Lemma X6_formatting_one_line_witness :
  let context := Example.context (lit "a.ts") (lit "  <div></div>  ") in
  ~ In LF (TemplateContext.text context)
  /\ getFormattingEditsForRange Example.service context 0 15 Example.settings
     = [ {| ts.TextChange.span := {| ts.TextSpan.start := 0; ts.TextSpan.length := 15 |};
            ts.TextChange.newText := [] |} ].
Proof.
  intros context.
  assert (Hn : ~ In LF (TemplateContext.text context)).
  { simpl. intros H.
    repeat (destruct H as [H|H]; [discriminate H|]). exact H. }
  split; [exact Hn|].
  exact (X6_formatting_one_line_fragment Example.service context 0 15
                                         Example.settings Hn).
Defined.

(** X7.  A fragment that consists of whitespace only and has a line feed
    is never handed to the formatter: for every range inside the text
    there is no edit. *)
Theorem X7_formatting_blank_fragment
        {HTMLDocument Stylesheet : Type}
        (this : @HtmlTemplateLanguageService HTMLDocument Stylesheet)
        (context : TemplateContext.t) (start end_ : Z)
        (settings : ts.EditorSettings.t) :
  forallb is_space (TemplateContext.text context) = true ->
  In LF (TemplateContext.text context) ->
  0 <= start ->
  end_ <= strlen (TemplateContext.text context) ->
  getFormattingEditsForRange this context start end_ settings = [].
Proof.
  intros Hs Hin H0 Hend.
  destruct (formatting_shrink_lengths this context start end_ settings)
    as (leading & trailing & [_ ML] & [_ MT] & E).
  rewrite E. clear E.
  destruct (negb _); [reflexivity|].
  apply in_split in Hin. destruct Hin as (l1 & l2 & Ht).
  rewrite Ht in Hs. rewrite forallb_app in Hs.
  apply andb_true_iff in Hs. destruct Hs as [S1 S2].
  assert (BP : blankPrefix (TemplateContext.text context) (l1 ++ [LF])).
  { split; [exists l2; rewrite Ht, <- app_assoc; reflexivity|].
    split; [rewrite forallb_app, S1; reflexivity|].
    right. apply last_last. }
  assert (BS : blankSuffix (TemplateContext.text context) (LF :: l2)).
  { split; [exists l1; exact Ht|].
    split; [exact S2 | right; reflexivity]. }
  specialize (ML _ BP). specialize (MT _ BS).
  rewrite length_app in ML. simpl in ML, MT.
  unfold strlen in *. rewrite Ht in Hend. rewrite length_app in Hend. simpl in Hend.
  replace (end_ - Z.of_nat (List.length trailing)
           <=? start + Z.of_nat (List.length leading)) with true; [reflexivity|].
  symmetry. apply Z.leb_le. lia.
Qed.

(** The statement for a fragment of two blank lines and the range of the
    whole text. *)
Lemma X7_formatting_blank_witness :
  getFormattingEditsForRange Example.service
    (Example.context (lit "a.ts") [32; LF; 32; 32; LF; 32]%N) 0 6 Example.settings
  = [].
Proof.
  apply (X7_formatting_blank_fragment Example.service
           (Example.context (lit "a.ts") [32; LF; 32; 32; LF; 32]%N) 0 6
           Example.settings).
  - reflexivity.
  - right; left; reflexivity.
  - lia.
  - vm_compute. discriminate.
Defined.

(** ** The cleanup of CSS hover values, in general *)

Lemma replace_go_length r (s : jsstring) : forall skip,
  (List.length (replace_go r [] skip s) <= List.length s)%nat.
Proof.
  induction s as [|c s IH]; intros skip.
  - simpl. destruct skip; [destruct (match_at r [])|]; simpl; lia.
  - cbn [replace_go]. destruct skip as [|k].
    + destruct (match_at r (c :: s)) as [[|n]|]; simpl.
      * specialize (IH O). lia.
      * specialize (IH n). lia.
      * specialize (IH O). lia.
    + specialize (IH k). simpl. lia.
Qed.

Lemma removeStyleDeclaration_shorter (value : jsstring) :
  styleOccurs value = true ->
  (List.length (removeStyleDeclaration value) < List.length value)%nat.
Proof.
  unfold removeStyleDeclaration, str_replace.
  induction value as [|c value IH]; intros H; [discriminate H|].
  cbn [styleOccurs] in H. cbn [replace_go].
  rewrite match_at_styleDeclaration_eq.
  destruct (styleStartsHere (c :: value)).
  - remember (leadingSpaces (skipn 8 (c :: value))) as k.
    change (8 + k)%nat with (S (7 + k)). change (lit "") with (@nil N).
    cbv iota beta. cbn [app List.length].
    pose proof (replace_go_length re_styleDeclaration value (7 + k)) as L.
    lia.
  - simpl in H. specialize (IH H). simpl. lia.
Qed.

(** X8.  The cleanup of a CSS hover value never makes the value longer,
    and it changes the value exactly when the style tag, in any letter
    case, followed by a line feed and a whitespace character occurs
    somewhere in it; the result is then strictly shorter. *)
Theorem X8_cleanup_changes_iff_occurs (value : jsstring) :
  (List.length (removeStyleDeclaration value) <= List.length value)%nat
  /\ (removeStyleDeclaration value = value <-> styleOccurs value = false)
  /\ (styleOccurs value = true ->
      (List.length (removeStyleDeclaration value) < List.length value)%nat).
Proof.
  split; [|split; [split|]].
  - apply replace_go_length.
  - intros E. destruct (styleOccurs value) eqn:O; [|reflexivity].
    pose proof (removeStyleDeclaration_shorter value O) as L.
    rewrite E in L. lia.
  - apply replace_go_no_occurrence.
  - apply removeStyleDeclaration_shorter.
Qed.

(** The statement for a value with the tag in upper case in its
    middle. *)
Lemma X8_cleanup_witness :
  styleOccurs (lit "a {<STYLE>" ++ [LF; 9]%N ++ lit "}") = true
  /\ (List.length (removeStyleDeclaration (lit "a {<STYLE>" ++ [LF; 9]%N ++ lit "}"))
      < List.length (lit "a {<STYLE>" ++ [LF; 9]%N ++ lit "}"))%nat.
Proof.
  split; [reflexivity|].
  apply (proj2 (proj2 (X8_cleanup_changes_iff_occurs
                         (lit "a {<STYLE>" ++ [LF; 9]%N ++ lit "}")))).
  reflexivity.
Defined.

(** X9.  A tag line at the start of a CSS hover value goes away with the
    whitespace after it: when the value is the style tag in any letter
    case, a line feed, at least one whitespace character, and a rest
    that does not start with whitespace, its cleanup is the cleanup of
    the rest, and the rest itself when the tag does not occur in it. *)
Theorem X9_cleanup_removes_tag_line (tag ws rest : jsstring) :
  List.length tag = 7%nat ->
  startsWithAnyCase (lit "<style>") tag = true ->
  ws <> [] ->
  forallb is_space ws = true ->
  leadingSpaces rest = O ->
  removeStyleDeclaration (tag ++ LF :: ws ++ rest) = removeStyleDeclaration rest
  /\ (styleOccurs rest = false ->
      removeStyleDeclaration (tag ++ LF :: ws ++ rest) = rest).
Proof.
  intros Hlen Htag Hws Hsp Hrest.
  assert (E : removeStyleDeclaration (tag ++ LF :: ws ++ rest)
              = removeStyleDeclaration rest).
  { unfold removeStyleDeclaration, str_replace.
    assert (Hs : styleStartsHere (tag ++ LF :: ws ++ rest) = true).
    { unfold styleStartsHere.
      rewrite (startsWithAnyCase_app _ _ _ Htag).
      rewrite skipn_app, Hlen, Nat.sub_diag.
      rewrite skipn_all2 by lia. simpl.
      destruct ws as [|w ws]; [contradiction|].
      simpl in Hsp. apply andb_true_iff in Hsp. destruct Hsp as [Hw _].
      simpl. rewrite Hw. reflexivity. }
    assert (Hk : skipn 8 (tag ++ LF :: ws ++ rest) = ws ++ rest).
    { rewrite skipn_app, Hlen. rewrite skipn_all2 by lia. reflexivity. }
    destruct tag as [|c tag]; [discriminate Hlen|].
    cbn [app replace_go] in *.
    rewrite match_at_styleDeclaration_eq, Hs, Hk.
    rewrite (leadingSpaces_app _ _ Hsp), Hrest.
    change (lit "") with (@nil N).
    replace (8 + (List.length ws + 0))%nat
      with (S (List.length (tag ++ LF :: ws)))
      by (rewrite length_app; simpl in *; lia).
    cbv iota beta. cbn [app].
    replace (tag ++ LF :: ws ++ rest) with ((tag ++ LF :: ws) ++ rest)
      by (rewrite <- app_assoc; reflexivity).
    apply replace_go_skip. }
  split; [exact E|].
  intros O. rewrite E. unfold removeStyleDeclaration, str_replace.
  apply replace_go_no_occurrence, O.
Qed.

(** The statement for the hover value of the specification's example. *)
Lemma X9_cleanup_tag_line_witness :
  removeStyleDeclaration Example.styleValue = lit "color: red;".
Proof.
  refine (proj2 (X9_cleanup_removes_tag_line
                   (lit "<style>") [32; 32; 32; 32]%N (lit "color: red;")
                   eq_refl eq_refl _ eq_refl eq_refl) eq_refl).
  discriminate.
Defined.

(** ** Entry details of the names that were offered *)

Lemma findByLabel_first pre x post name :
  (forall y, In y pre -> vscode.CompletionItem.label y <> name) ->
  vscode.CompletionItem.label x = name ->
  findByLabel (pre ++ x :: post) name = Some x.
Proof.
  intros Hpre Hx. unfold findByLabel.
  induction pre as [|y pre IH]; simpl.
  - rewrite Hx, str_eqb_refl. reflexivity.
  - replace (str_eqb (vscode.CompletionItem.label y) name) with false.
    + apply IH. intros z Hz. apply Hpre. right; exact Hz.
    + symmetry. apply str_eqb_neq. apply Hpre. left; reflexivity.
Qed.

(** X10.  The details of a name are those of the first item of the
    computed completion list that carries the name as its label; items
    with the same label further down the list are not looked at.  The
    record has the name, the translated kind of that item, display parts
    from its detail and documentation from its documentation. *)
Theorem X10_entry_details_first_match
        {HTMLDocument Stylesheet : Type}
        (gdr : HtmlLanguageService.t HTMLDocument -> vscode.TextDocument.t ->
               HTMLDocumentRegions.t)
        (gcss : unit -> CssLanguageService.t Stylesheet)
        (this : @HtmlTemplateLanguageService HTMLDocument Stylesheet)
        (c : TemplateContext.t) (p : vscode.Position.t) (name : jsstring)
        (pre post : list vscode.CompletionItem.t) (x : vscode.CompletionItem.t) :
  vscode.CompletionList.items (fst (getCompletionItems gdr gcss this c p))
  = pre ++ x :: post ->
  (forall y, In y pre -> vscode.CompletionItem.label y <> name) ->
  vscode.CompletionItem.label x = name ->
  fst (getCompletionEntryDetails gdr gcss this c p name)
  = {| ts.CompletionEntryDetails.name := name;
       ts.CompletionEntryDetails.kind :=
         translateItemKind (vscode.CompletionItem.kind x);
       ts.CompletionEntryDetails.kindModifiers := lit "declare";
       ts.CompletionEntryDetails.tags := [];
       ts.CompletionEntryDetails.displayParts :=
         toDisplayParts (option_map vscode.DocString (vscode.CompletionItem.detail x));
       ts.CompletionEntryDetails.documentation :=
         toDisplayParts (vscode.CompletionItem.documentation x) |}.
Proof.
  intros Hitems Hpre Hx. unfold getCompletionEntryDetails.
  destruct (getCompletionItems gdr gcss this c p) as [l this'].
  simpl in Hitems. rewrite Hitems, (findByLabel_first _ _ _ _ Hpre Hx).
  unfold translateCompletionItemsToCompletionEntryDetails. rewrite Hx.
  reflexivity.
Qed.

(** The statement at the example instance, for the second item of the
    HTML engine. *)
Lemma X10_entry_details_witness :
  fst (getCompletionEntryDetails Example.regions Example.css Example.service
         (Example.context (lit "a.ts") Example.divText) (Example.at_ 0 1)
         (lit "span"))
  = {| ts.CompletionEntryDetails.name := lit "span";
       ts.CompletionEntryDetails.kind := ts.ScriptElementKind.unknown;
       ts.CompletionEntryDetails.kindModifiers := lit "declare";
       ts.CompletionEntryDetails.tags := [];
       ts.CompletionEntryDetails.displayParts :=
         [ts.SymbolDisplayPart.mk (lit "element") (lit "text")];
       ts.CompletionEntryDetails.documentation := [] |}.
Proof.
  apply (X10_entry_details_first_match
           Example.regions Example.css Example.service
           (Example.context (lit "a.ts") Example.divText) (Example.at_ 0 1)
           (lit "span")
           [Example.item "div" (Some vscode.CompletionItemKind.Property)] []
           (Example.item "span" None)).
  - reflexivity.
  - intros y [E|[]]; subst y; discriminate.
  - reflexivity.
Defined.

(** X11.  Every entry that [getCompletionsAtPosition] offers can be
    resolved afterwards: on an instance that holds the cache this call
    left, whatever its engines and its classifier answer by then,
    [getCompletionEntryDetails] for the same context and position and
    the name of the entry asks no engine and leaves the instance alone;
    its record has that name and the modifier [declare], and its kind is
    the kind of an offered entry of that name. *)
Theorem X11_offered_entries_resolve
        {HTMLDocument Stylesheet : Type}
        (gdr gdr' : HtmlLanguageService.t HTMLDocument -> vscode.TextDocument.t ->
                    HTMLDocumentRegions.t)
        (gcss gcss' : unit -> CssLanguageService.t Stylesheet)
        (this this' : @HtmlTemplateLanguageService HTMLDocument Stylesheet)
        (c : TemplateContext.t) (p : vscode.Position.t)
        (entry : ts.CompletionEntry.t) :
  let offered := getCompletionsAtPosition gdr gcss this c p in
  let details :=
    getCompletionEntryDetails gdr' gcss' this' c p (ts.CompletionEntry.name entry) in
  _completionsCache this' = _completionsCache (snd offered) ->
  In entry (ts.CompletionInfo.entries (fst offered)) ->
  snd details = this'
  /\ ts.CompletionEntryDetails.name (fst details) = ts.CompletionEntry.name entry
  /\ ts.CompletionEntryDetails.kindModifiers (fst details) = lit "declare"
  /\ exists entry',
      In entry' (ts.CompletionInfo.entries (fst offered))
      /\ ts.CompletionEntry.name entry' = ts.CompletionEntry.name entry
      /\ ts.CompletionEntryDetails.kind (fst details) = ts.CompletionEntry.kind entry'.
Proof.
  intros offered details Hcache Hin.
  unfold offered, getCompletionsAtPosition in Hcache, Hin.
  pose proof (getCompletionItems_cache gdr gcss this c p) as Hc.
  unfold details, offered, getCompletionsAtPosition, getCompletionEntryDetails.
  destruct (getCompletionItems gdr gcss this c p) as [l this1].
  simpl in Hcache, Hin, Hc |- *.
  assert (Hhit : getCompletionItems gdr' gcss' this' c p = (l, this')).
  { apply getCompletionItems_hit. rewrite Hcache, Hc.
    change (CompletionsCache.mk (Some (TemplateContext.fileName c)) (Some p)
              (Some (TemplateContext.text c)) (Some l))
      with (CompletionsCache.updateCached CompletionsCache.new c p l).
    apply getCached_updateCached_hit. repeat split. }
  rewrite Hhit.
  apply in_map_iff in Hin. destruct Hin as (x & Ex & Hx). subst entry. simpl.
  destruct (findByLabel (vscode.CompletionList.items l)
                        (vscode.CompletionItem.label x)) as [y|] eqn:F.
  - apply findByLabel_Some in F. destruct F as [Hy Ey]. simpl.
    split; [reflexivity|]. split; [exact Ey|]. split; [reflexivity|].
    exists (translateCompetionEntry y).
    split; [apply in_map; exact Hy|]. split; [exact Ey | reflexivity].
  - exfalso. apply (proj1 (findByLabel_None _ _) F x Hx). reflexivity.
Qed.

(** The statement at the example instance, for the first entry. *)
Lemma X11_offered_entries_witness :
  let c := Example.context (lit "a.ts") Example.divText in
  let offered :=
    getCompletionsAtPosition Example.regions Example.css Example.service c
                             (Example.at_ 0 1) in
  ts.CompletionEntryDetails.kindModifiers
    (fst (getCompletionEntryDetails Example.regions Example.css (snd offered) c
            (Example.at_ 0 1) (lit "div")))
  = lit "declare".
Proof.
  intros c offered.
  refine (proj1 (proj2 (proj2
           (X11_offered_entries_resolve
              Example.regions Example.regions Example.css Example.css
              Example.service (snd offered) c (Example.at_ 0 1)
              (translateCompetionEntry
                 (Example.item "div" (Some vscode.CompletionItemKind.Property)))
              eq_refl _)))).
  left; reflexivity.
Defined.

(** ** What completion requests leave of an instance *)

Section Frame.

Context {HTMLDocument Stylesheet : Type}.
Variable gdr :
  HtmlLanguageService.t HTMLDocument -> vscode.TextDocument.t ->
  HTMLDocumentRegions.t.
Variable gcss : unit -> CssLanguageService.t Stylesheet.

Local Abbreviation Service := (@HtmlTemplateLanguageService HTMLDocument Stylesheet).

(** What one step may do to the fields besides the cache. *)
Definition framed (this this' : Service) : Prop :=
  configuration this' = configuration this
  /\ htmlLanguageService this' = htmlLanguageService this
  /\ styledLanguageService this' = styledLanguageService this
  /\ (_cssLanguageService this' = _cssLanguageService this
      \/ (_cssLanguageService this = None
          /\ _cssLanguageService this' = Some (gcss tt))).

Lemma framed_refl (this : Service) : framed this this.
Proof. unfold framed; auto. Qed.

Lemma framed_trans (a b d : Service) : framed a b -> framed b d -> framed a d.
Proof.
  unfold framed. intros (A1 & A2 & A3 & A4) (B1 & B2 & B3 & B4).
  repeat split; try congruence.
  destruct A4 as [A4|[A4 A5]]; destruct B4 as [B4|[B4 B5]].
  - left; congruence.
  - right; split; congruence.
  - right; split; congruence.
  - congruence.
Qed.

Lemma cssLanguageService_framed (this : Service) :
  framed this (snd (cssLanguageService gcss this)).
Proof.
  unfold framed, cssLanguageService.
  destruct (_cssLanguageService this) eqn:E; simpl; auto.
  repeat split; auto.
Qed.

Lemma computeCompletions_framed (this : Service) c p :
  framed this (snd (computeCompletions gdr gcss this c p))
  /\ (tagOf gdr (htmlLanguageService this) (c, p) <> lit "css" ->
      _cssLanguageService (snd (computeCompletions gdr gcss this c p))
      = _cssLanguageService this).
Proof.
  unfold computeCompletions, tagOf; simpl.
  destruct (str_eqb _ (lit "html")); simpl.
  - split; [apply framed_refl | reflexivity].
  - destruct (str_eqb _ (lit "css")) eqn:Hc.
    + pose proof (cssLanguageService_framed this) as F.
      destruct (cssLanguageService gcss this) as [css this']; simpl in *.
      split; [exact F|].
      intros N. apply str_eqb_eq in Hc. contradiction.
    + simpl. split; [apply framed_refl | reflexivity].
Qed.

Lemma getCompletionItems_framed (this : Service) c p :
  framed this (snd (getCompletionItems gdr gcss this c p))
  /\ (tagOf gdr (htmlLanguageService this) (c, p) <> lit "css" ->
      _cssLanguageService (snd (getCompletionItems gdr gcss this c p))
      = _cssLanguageService this).
Proof.
  destruct (CompletionsCache.getCached (_completionsCache this) c p)
    as [l|] eqn:H.
  - rewrite (getCompletionItems_hit _ _ _ _ _ _ H). simpl.
    split; [apply framed_refl | reflexivity].
  - rewrite (getCompletionItems_miss _ _ _ _ _ H).
    exact (computeCompletions_framed this c p).
Qed.

Lemma serveCompletions_framed requests : forall this : Service,
  framed this (serveCompletions gdr gcss this requests)
  /\ ((forall request, In request requests ->
         tagOf gdr (htmlLanguageService this) request <> lit "css") ->
      _cssLanguageService (serveCompletions gdr gcss this requests)
      = _cssLanguageService this).
Proof.
  induction requests as [|[c p] requests IH]; intros this.
  - simpl. split; [apply framed_refl | reflexivity].
  - simpl.
    destruct (getCompletionItems_framed this c p) as [F1 C1].
    destruct (IH (snd (getCompletionItems gdr gcss this c p))) as [F2 C2].
    split; [exact (framed_trans _ _ _ F1 F2)|].
    intros Hn.
    assert (Hh : htmlLanguageService (snd (getCompletionItems gdr gcss this c p))
                 = htmlLanguageService this) by apply F1.
    rewrite Hh in C2. rewrite C2.
    + apply C1. apply (Hn (c, p)). left; reflexivity.
    + intros request Hr. apply Hn. right; exact Hr.
Qed.

End Frame.

(** X12.  Completion requests change nothing of an instance but its
    cache and, at most once, its CSS engine: after any list of requests
    the configuration, the HTML service and the styled service are those
    it was built with; the CSS engine is the one it had, or, when it had
    none, the one [getCSSLanguageService] gives; and it still has none
    when no request was classified [css].  The getter of the CSS engine
    gives the same engine however often it is read. *)
Theorem X12_requests_keep_services
        {HTMLDocument Stylesheet : Type}
        (gdr : HtmlLanguageService.t HTMLDocument -> vscode.TextDocument.t ->
               HTMLDocumentRegions.t)
        (gcss : unit -> CssLanguageService.t Stylesheet)
        (this : @HtmlTemplateLanguageService HTMLDocument Stylesheet)
        (requests : list (TemplateContext.t * vscode.Position.t)) :
  let this' := serveCompletions gdr gcss this requests in
  configuration this' = configuration this
  /\ htmlLanguageService this' = htmlLanguageService this
  /\ styledLanguageService this' = styledLanguageService this
  /\ (_cssLanguageService this' = _cssLanguageService this
      \/ (_cssLanguageService this = None
          /\ _cssLanguageService this' = Some (gcss tt)))
  /\ ((forall request, In request requests ->
         tagOf gdr (htmlLanguageService this) request <> lit "css") ->
      _cssLanguageService this' = _cssLanguageService this)
  /\ cssLanguageService gcss (snd (cssLanguageService gcss this'))
     = (fst (cssLanguageService gcss this'), snd (cssLanguageService gcss this')).
Proof.
  intros this'.
  destruct (serveCompletions_framed gdr gcss requests this) as [(F1 & F2 & F3 & F4) C].
  fold this' in F1, F2, F3, F4, C.
  split; [exact F1|]. split; [exact F2|]. split; [exact F3|].
  split; [exact F4|]. split; [exact C|].
  unfold cssLanguageService.
  destruct (_cssLanguageService this') eqn:E; simpl.
  - rewrite E. reflexivity.
  - reflexivity.
Qed.

(** The statement at the example instance: a request in the [css]
    region creates the CSS engine, and the requests before and after it
    leave the other services alone. *)
Lemma X12_requests_witness :
  let c := Example.context (lit "a.ts") Example.divText in
  let this' :=
    serveCompletions Example.regions Example.css Example.service
                     [(c, Example.at_ 0 1); (c, Example.at_ 1 0); (c, Example.at_ 2 0)] in
  htmlLanguageService this' = Example.html
  /\ _cssLanguageService this' = Some (Example.css tt).
Proof.
  intros c this'.
  split.
  - exact (proj1 (proj2 (X12_requests_keep_services
                           Example.regions Example.css Example.service
                           [(c, Example.at_ 0 1); (c, Example.at_ 1 0);
                            (c, Example.at_ 2 0)]))).
  - reflexivity.
Defined.

(** ** Formatting: what is not whitespace stays in the range *)

Lemma space_prefix_bound (l1 : jsstring) : forall pre rest x l2,
  pre ++ rest = l1 ++ x :: l2 ->
  forallb is_space pre = true ->
  is_space x = false ->
  (List.length pre <= List.length l1)%nat.
Proof.
  induction l1 as [|a l1 IH]; intros pre rest x l2 E Hs Hx.
  - destruct pre as [|y pre]; [simpl; lia|].
    simpl in E. inversion E; subst y.
    simpl in Hs. rewrite Hx in Hs. discriminate Hs.
  - destruct pre as [|y pre]; [simpl; lia|].
    simpl in E. inversion E; subst.
    simpl in Hs. apply andb_true_iff in Hs. destruct Hs as [_ Hs].
    specialize (IH pre rest x l2 H1 Hs Hx). simpl. lia.
Qed.

Lemma forallb_rev (f : N -> bool) (l : jsstring) :
  forallb f l = true -> forallb f (rev l) = true.
Proof.
  rewrite !forallb_forall. intros H x Hx. apply H, in_rev, Hx.
Qed.

Lemma space_suffix_bound (l1 l2 before suf : jsstring) (x : N) :
  before ++ suf = l1 ++ x :: l2 ->
  forallb is_space suf = true ->
  is_space x = false ->
  (List.length suf <= List.length l2)%nat.
Proof.
  intros E Hs Hx.
  apply (f_equal (@rev N)) in E.
  rewrite !rev_app_distr in E. simpl in E. rewrite <- app_assoc in E. simpl in E.
  pose proof (space_prefix_bound (rev l2) (rev suf) (rev before) x (rev l1)
                                 E (forallb_rev _ _ Hs) Hx) as B.
  rewrite !length_rev in B. exact B.
Qed.

(** X13.  With formatting enabled, formatting the whole text of a
    fragment never leaves a character that is not whitespace out of the
    range: when such a character stands at offset [n], the formatter is
    called, and the range it is given starts at or before [n] and ends
    after it. *)
Theorem X13_formatting_keeps_content
        {HTMLDocument Stylesheet : Type}
        (this : @HtmlTemplateLanguageService HTMLDocument Stylesheet)
        (context : TemplateContext.t) (settings : ts.EditorSettings.t)
        (l1 l2 : jsstring) (x : N) :
  TsHtmlPluginConfiguration.enabled
    (TsHtmlPluginConfiguration.format (configuration this)) = true ->
  TemplateContext.text context = l1 ++ x :: l2 ->
  is_space x = false ->
  exists start end_ : Z,
    0 <= start <= strlen l1
    /\ strlen l1 < end_ <= strlen (TemplateContext.text context)
    /\ getFormattingEditsForRange this context 0
         (strlen (TemplateContext.text context)) settings
       = formatRange this context start end_ settings.
Proof.
  intros He Ht Hx.
  destruct (formatting_shrink_lengths this context 0
              (strlen (TemplateContext.text context)) settings)
    as (leading & trailing & [([r1 E1] & S1 & _) _] & [([b2 E2] & S2 & _) _] & E).
  rewrite He in E. simpl negb in E. cbv iota in E.
  rewrite Ht in E1, E2.
  pose proof (space_prefix_bound l1 leading r1 x l2 (eq_sym E1) S1 Hx) as B1.
  pose proof (space_suffix_bound l1 l2 b2 trailing x (eq_sym E2) S2 Hx) as B2.
  assert (Hlen : strlen (TemplateContext.text context)
                 = strlen l1 + 1 + strlen l2).
  { rewrite Ht. unfold strlen. rewrite length_app. simpl. lia. }
  exists (0 + strlen leading), (strlen (TemplateContext.text context) - strlen trailing).
  unfold strlen in *.
  split; [lia|]. split; [lia|].
  rewrite E.
  replace (Z.of_nat (List.length (TemplateContext.text context))
           - Z.of_nat (List.length trailing)
           <=? 0 + Z.of_nat (List.length leading)) with false; [reflexivity|].
  symmetry. apply Z.leb_gt. lia.
Qed.

(** The statement for the padded fragment of the example and the first
    character of its element, at offset 3. *)
Lemma X13_formatting_keeps_content_witness :
  exists start end_ : Z,
    0 <= start <= 3
    /\ 3 < end_ <= 17
    /\ getFormattingEditsForRange Example.service
         (Example.context (lit "a.ts") Example.paddedText) 0 17 Example.settings
       = formatRange Example.service
           (Example.context (lit "a.ts") Example.paddedText) start end_
           Example.settings.
Proof.
  exact (X13_formatting_keeps_content Example.service
           (Example.context (lit "a.ts") Example.paddedText) Example.settings
           [LF; 32; 32]%N (lit "div></div>" ++ [LF; 32; 32]%N) 60%N
           eq_refl eq_refl eq_refl).
Defined.
